(** * Vietnam holidays: the lunisolar converter and the per-year rule set

    A shallow embedding of [holidays/countries/vietnam.py].  Python integers
    are [Z]; the bit-packed table is a [list Z] indexed the way a Python list
    is (negative subscripts count from the end); every call that can raise
    returns a [result]; [_populate], which assigns into [self], runs in a
    small state-and-exception monad whose state survives an exception, as a
    Python object does. *)

From Stdlib Require Import ZArith String List Bool Lia.
Import ListNotations.
Local Open Scope Z_scope.

(* ===================================================================== *)
(** ** Python built-ins used by the module *)
(* ===================================================================== *)

Module Py.

Inductive exn : Set := IndexError | ValueError | OverflowError.

Inductive result (A : Type) : Type :=
| Ok (a : A)
| Raise (e : exn).
Arguments Ok {A} a.
Arguments Raise {A} e.

Definition bind {A B} (r : result A) (k : A -> result B) : result B :=
  match r with
  | Ok a => k a
  | Raise e => Raise e
  end.

(** [l[i]]: subscripts [0 .. len-1] count from the front, [-len .. -1]
    from the back, anything else raises [IndexError]. *)
Definition getitem {A} (l : list A) (i : Z) : result A :=
  let n := Z.of_nat (length l) in
  let j := if i <? 0 then i + n else i in
  if (j <? 0) || (n <=? j) then Raise IndexError
  else match nth_error l (Z.to_nat j) with
       | Some a => Ok a
       | None => Raise IndexError
       end.

(** [range(a, b)] with step 1. *)
Definition range (a b : Z) : list Z :=
  map (fun k => a + Z.of_nat k) (seq 0 (Z.to_nat (b - a))).

(** [x >> n]: a negative shift count raises [ValueError]. *)
Definition rshift (x n : Z) : result Z :=
  if n <? 0 then Raise ValueError else Ok (Z.shiftr x n).

(** [int(b)] for a [bool] used in arithmetic. *)
Definition of_bool (b : bool) : Z := if b then 1 else 0.

(** A [for] loop whose body may raise: the accumulator is threaded through
    the iterations in order and the first exception ends the loop. *)
Fixpoint for_ {S} (l : list Z) (body : Z -> S -> result S) (s : S)
  : result S :=
  match l with
  | [] => Ok s
  | i :: l' => bind (body i s) (for_ l' body)
  end.

End Py.

Import Py.

Declare Scope py_scope.
Delimit Scope py_scope with py.
Notation "x <- c ;; k" := (Py.bind c (fun x => k))
  (at level 61, c at next level, right associativity) : py_scope.
Local Open Scope py_scope.

(* ===================================================================== *)
(** ** [datetime]: proleptic Gregorian ordinals *)
(* ===================================================================== *)

Module Datetime.

Definition MINYEAR : Z := 1.
Definition MAXYEAR : Z := 9999.
Definition _MAXORDINAL : Z := 3652059.

Definition _DAYS_IN_MONTH : list Z :=
  [-1; 31; 28; 31; 30; 31; 30; 31; 31; 30; 31; 30; 31].
Definition _DAYS_BEFORE_MONTH : list Z :=
  [-1; 0; 31; 59; 90; 120; 151; 181; 212; 243; 273; 304; 334].

Definition tbl (l : list Z) (m : Z) : Z := nth (Z.to_nat m) l 0.

Definition _is_leap (year : Z) : bool :=
  (year mod 4 =? 0) && (negb (year mod 100 =? 0) || (year mod 400 =? 0)).

Definition _days_before_year (year : Z) : Z :=
  let y := year - 1 in
  y * 365 + y / 4 - y / 100 + y / 400.

Definition _days_in_month (year month : Z) : Z :=
  if (month =? 2) && _is_leap year then 29 else tbl _DAYS_IN_MONTH month.

Definition _days_before_month (year month : Z) : Z :=
  tbl _DAYS_BEFORE_MONTH month
  + of_bool ((month >? 2) && _is_leap year).

Definition _DI400Y : Z := 146097.
Definition _DI100Y : Z := 36524.
Definition _DI4Y : Z := 1461.

(** A [date]; a [datetime] whose time of day is midnight, the only kind
    the module builds, is represented by its calendar part. *)
Record date : Set := Date { year_of : Z; month_of : Z; day_of : Z }.
Definition datetime : Set := date.

Definition date_eqb (a b : date) : bool :=
  (year_of a =? year_of b) && (month_of a =? month_of b)
  && (day_of a =? day_of b).

Definition _ymd2ord (year month day : Z) : Z :=
  _days_before_year year + _days_before_month year month + day.

Definition toordinal (d : date) : Z :=
  _ymd2ord (year_of d) (month_of d) (day_of d).

Definition _ord2ymd (n : Z) : date :=
  let n := n - 1 in
  let n400 := n / _DI400Y in
  let n := n mod _DI400Y in
  let year := n400 * 400 + 1 in
  let n100 := n / _DI100Y in
  let n := n mod _DI100Y in
  let n4 := n / _DI4Y in
  let n := n mod _DI4Y in
  let n1 := n / 365 in
  let n := n mod 365 in
  let year := year + (n100 * 100 + n4 * 4 + n1) in
  if (n1 =? 4) || (n100 =? 4) then Date (year - 1) 12 31
  else
    let leapyear := (n1 =? 3) && (negb (n4 =? 24) || (n100 =? 3)) in
    let month := Z.shiftr (n + 50) 5 in
    let preceding :=
      tbl _DAYS_BEFORE_MONTH month + of_bool ((month >? 2) && leapyear) in
    if preceding >? n then
      let month := month - 1 in
      let preceding :=
        preceding
        - (tbl _DAYS_IN_MONTH month + of_bool ((month =? 2) && leapyear)) in
      Date year month (n - preceding + 1)
    else Date year month (n - preceding + 1).

(** [date(year, month, day)], with the constructor's field check. *)
Definition mk_date (year month day : Z) : result date :=
  if (MINYEAR <=? year) && (year <=? MAXYEAR)
     && (1 <=? month) && (month <=? 12)
     && (1 <=? day) && (day <=? _days_in_month year month)
  then Ok (Date year month day)
  else Raise ValueError.

(** [timedelta(days)]: the day count is bounded by 999999999. *)
Definition timedelta (days : Z) : result Z :=
  if (-999999999 <=? days) && (days <=? 999999999) then Ok days
  else Raise OverflowError.

(** [d + timedelta(days)]. *)
Definition add (d : date) (days : Z) : result date :=
  let o := toordinal d + days in
  if (0 <? o) && (o <=? _MAXORDINAL) then Ok (_ord2ymd o)
  else Raise OverflowError.

(** [d + relativedelta(days=n)]: no year or month part, so it is the
    addition of [timedelta(days=n)]. *)
Definition add_rd_days (d : date) (n : Z) : result date :=
  td <- timedelta n ;; add d td.

(** [d.weekday()]: Monday is 0, Sunday is 6. *)
Definition weekday (d : date) : Z := (toordinal d + 6) mod 7.

End Datetime.

Import Datetime.

(** Modelled from the spec: [holidays.constants] is not part of this module.
    The month constants are the month numbers; [SAT] and [SUN] are the
    values [weekday()] gives a Saturday and a Sunday. *)
Definition JAN : Z := 1.
Definition APR : Z := 4.
Definition MAY : Z := 5.
Definition SEP : Z := 9.
Definition SAT : Z := 5.
Definition SUN : Z := 6.

(* ===================================================================== *)
(** ** The lunisolar converter *)
(* ===================================================================== *)

Definition g_lunar_month_days : list Z := [
  0xF0EA4; 0xF1D4A; 0x52C94; 0xF0C96; 0xF1536;
  0x42AAC; 0xF0AD4; 0xF16B2; 0x22EA4; 0xF0EA4;  (* 1901-1910 *)
  0x6364A; 0xF164A; 0xF1496; 0x52956; 0xF055A;
  0xF0AD6; 0x216D2; 0xF1B52; 0x73B24; 0xF1D24;  (* 1911-1920 *)
  0xF1A4A; 0x5349A; 0xF14AC; 0xF056C; 0x42B6A;
  0xF0DA8; 0xF1D52; 0x23D24; 0xF1D24; 0x61A4C;  (* 1921-1930 *)
  0xF0A56; 0xF14AE; 0x5256C; 0xF16B4; 0xF0DA8;
  0x31D92; 0xF0E92; 0x72D26; 0xF1526; 0xF0A56;  (* 1931-1940 *)
  0x614B6; 0xF155A; 0xF0AD4; 0x436AA; 0xF1748;
  0xF1692; 0x23526; 0xF152A; 0x72A5A; 0xF0A6C;  (* 1941-1950 *)
  0xF155A; 0x52B54; 0xF0B64; 0xF1B4A; 0x33A94;
  0xF1A94; 0x8152A; 0xF152E; 0xF0AAC; 0x6156A;  (* 1951-1960 *)
  0xF15AA; 0xF0DA4; 0x41D4A; 0xF1D4A; 0xF0C94;
  0x3192E; 0xF1536; 0x72AB4; 0xF0AD4; 0xF16D2;  (* 1961-1970 *)
  0x52EA4; 0xF16A4; 0xF164A; 0x42C96; 0xF1496;
  0x82956; 0xF055A; 0xF0ADA; 0x616D2; 0xF1B52;  (* 1971-1980 *)
  0xF1B24; 0x43A4A; 0xF1A4A; 0xA349A; 0xF14AC;
  0xF056C; 0x60B6A; 0xF0DAA; 0xF1D92; 0x53D24;  (* 1981-1990 *)
  0xF1D24; 0xF1A4C; 0x314AC; 0xF14AE; 0x829AC;
  0xF06B4; 0xF0DAA; 0x52D92; 0xF0E92; 0xF0D26;  (* 1991-2000 *)
  0x42A56; 0xF0A56; 0xF14B6; 0x22AB4; 0xF0AD4;
  0x736AA; 0xF1748; 0xF1692; 0x53526; 0xF152A;  (* 2001-2010 *)
  0xF0A5A; 0x4155A; 0xF156A; 0x92B54; 0xF0BA4;
  0xF1B4A; 0x63A94; 0xF1A94; 0xF192A; 0x42A5C;  (* 2011-2020 *)
  0xF0AAC; 0xF156A; 0x22B64; 0xF0DA4; 0x61D52;
  0xF0E4A; 0xF0C96; 0x5192E; 0xF1956; 0xF0AB4;  (* 2021-2030 *)
  0x315AC; 0xF16D2; 0xB2EA4; 0xF16A4; 0xF164A;
  0x63496; 0xF1496; 0xF0956; 0x50AB6; 0xF0B5A;  (* 2031-2040 *)
  0xF16D4; 0x236A4; 0xF1B24; 0x73A4A; 0xF1A4A;
  0xF14AA; 0x5295A; 0xF096C; 0xF0B6A; 0x31B54;  (* 2041-2050 *)
  0xF1D92; 0x83D24; 0xF1D24; 0xF1A4C; 0x614AC;
  0xF14AE; 0xF09AC; 0x40DAA; 0xF0EAA; 0xF0E92;  (* 2051-2060 *)
  0x31D26; 0xF0D26; 0x72A56; 0xF0A56; 0xF14B6;
  0x52AB4; 0xF0AD4; 0xF16CA; 0x42E94; 0xF1694;  (* 2061-2070 *)
  0x8352A; 0xF152A; 0xF0A5A; 0x6155A; 0xF156A;
  0xF0B54; 0x4174A; 0xF1B4A; 0xF1A94; 0x3392A;  (* 2071-2080 *)
  0xF192C; 0x7329C; 0xF0AAC; 0xF156A; 0x52B64;
  0xF0DA4; 0xF1D4A; 0x41C94; 0xF0C96; 0x8192E;  (* 2081-2090 *)
  0xF0956; 0xF0AB6; 0x615AC; 0xF16D4; 0xF0EA4;
  0x42E4A; 0xF164A; 0xF1516; 0x22936            (* 2090-2099 *)
].

Definition START_YEAR : Z := 1901.
Definition END_YEAR : Z := 1900 + Z.of_nat (length g_lunar_month_days).

Definition LUNAR_START_DATE : Z * Z * Z := (1901, 1, 1).
Definition SOLAR_START_DATE : datetime := Date 1901 2 19.
Definition LUNAR_END_DATE : Z * Z * Z := (2099, 12, 30).
Definition SOLAR_END_DATE : datetime := Date 2100 2 18.

Definition get_leap_month (lunar_year : Z) : result Z :=
  e <- getitem g_lunar_month_days (lunar_year - START_YEAR) ;;
  s <- rshift e 16 ;;
  Ok (Z.land s 0x0F).

Definition lunar_month_days (lunar_year lunar_month : Z) : result Z :=
  e <- getitem g_lunar_month_days (lunar_year - START_YEAR) ;;
  s <- rshift e lunar_month ;;
  Ok (29 + Z.land s 0x01).

Definition lunar_year_days (year : Z) : result Z :=
  let days := 0 in
  months_day <- getitem g_lunar_month_days (year - START_YEAR) ;;
  leap <- get_leap_month year ;;
  for_ (range 1 (if leap =? 0x0F then 13 else 14))
       (fun i days =>
          s <- rshift months_day i ;;
          let day := 29 + Z.land s 0x01 in
          Ok (days + day))
       days.

Definition get_solar_date (year month day : Z) : result datetime :=
  let span_days := 0 in
  span_days <- for_ (range START_YEAR year)
                    (fun y span_days =>
                       d <- lunar_year_days y ;; Ok (span_days + d))
                    span_days ;;
  leap_month <- get_leap_month year ;;
  span_days <- for_ (range 1 (month + of_bool (month >? leap_month)))
                    (fun m span_days =>
                       d <- lunar_month_days year m ;; Ok (span_days + d))
                    span_days ;;
  let span_days := span_days + (day - 1) in
  td <- timedelta span_days ;;
  add SOLAR_START_DATE td.

(* ===================================================================== *)
(** ** The holiday map and the rule engine *)
(* ===================================================================== *)

Local Open Scope string_scope.
Local Open Scope Z_scope.

(** Modelled from the spec: the [HolidayBase] object that [Vietnam] extends
    is not part of this module.  It carries the [observed] flag and is the
    holiday map, a mapping from Gregorian date to name into which
    [self[d] = name] inserts.  The map is kept as the sequence of its
    assignments, newest first, so that both the assignments a call made and
    the binding a date ends up with can be read off. *)
Record HolidayBase : Type := Self {
  observed : bool;
  items : list (date * string)
}.

(** [self.get(d)]: the newest assignment to [d], if any. *)
Fixpoint lookup (d : date) (m : list (date * string)) : option string :=
  match m with
  | [] => None
  | (k, v) :: m' => if date_eqb k d then Some v else lookup d m'
  end.

(** The assignments made so far, in the order they were made. *)
Definition assignments (self : HolidayBase) : list (date * string) :=
  rev (items self).

(** Methods of [self]: they read and update the object and may raise; the
    object is returned as the exception left it. *)
Definition method (A : Type) : Type := HolidayBase -> result A * HolidayBase.

Definition ret {A} (a : A) : method A := fun self => (Ok a, self).

Definition mbind {A B} (c : method A) (k : A -> method B) : method B :=
  fun self =>
    match c self with
    | (Ok a, self') => k a self'
    | (Raise e, self') => (Raise e, self')
    end.

Definition call {A} (r : result A) : method A := fun self => (r, self).

Definition self_observed : method bool := fun self => (Ok (observed self), self).

(** [self[d] = name]. *)
Definition setitem (d : date) (name : string) : method unit :=
  fun self => (Ok tt, Self (observed self) ((d, name) :: items self)).

Fixpoint for_each (l : list Z) (body : Z -> method unit) : method unit :=
  match l with
  | [] => ret tt
  | i :: l' => mbind (body i) (fun _ => for_each l' body)
  end.

Declare Scope method_scope.
Delimit Scope method_scope with method.
Notation "x <- c ;; k" := (mbind c (fun x => k))
  (at level 61, c at next level, right associativity) : method_scope.
Notation "c ;; k" := (mbind c (fun _ => k))
  (at level 61, right associativity) : method_scope.

Definition new_year_name : string := "International New Year's Day".

Definition tet_names : list string :=
  [ "Vietnamese New Year";            (* index: 0 *)
    "The second day of Tet Holiday";  (* index: 1 *)
    "The third day of Tet Holiday";   (* index: 2 *)
    "The forth day of Tet Holiday";   (* index: 3 *)
    "The fifth day of Tet Holiday";   (* index: 4 *)
    "Vietnamese New Year's Eve"       (* index: -1 *)
  ].

Definition hung_kings_name : string := "Hung Kings Commemoration Day".
Definition liberation_name : string := "Liberation Day/Reunification Day".
Definition labor_name : string := "International Labor Day".
Definition independence_name : string := "Independence Day".

Definition _populate (year : Z) : method unit :=
  ( (* New Year's Day *)
    let name := new_year_name in
    first_date <- call (mk_date year JAN 1) ;;
    setitem first_date name ;;
    obs <- self_observed ;;
    (if obs then
       setitem first_date name ;;
       if weekday first_date =? SAT then
         d <- call (add_rd_days first_date 2) ;;
         setitem d (name ++ " observed")
       else if weekday first_date =? SUN then
         d <- call (add_rd_days first_date 1) ;;
         setitem d (name ++ " observed")
       else ret tt
     else ret tt) ;;
    (* Lunar New Year *)
    let name := tet_names in
    dt <- call (get_solar_date year 1 1) ;;
    new_year_date <- call (mk_date (year_of dt) (month_of dt) (day_of dt)) ;;
    obs <- self_observed ;;
    (if obs then
       for_each (range (-1) 5)
                (fun i =>
                   tet_day <- call (add_rd_days new_year_date i) ;;
                   n <- call (getitem name i) ;;
                   setitem tet_day n)
     else ret tt) ;;
    (* Vietnamese Kings' Commemoration Day *)
    (if year >=? 2007 then
       let name := hung_kings_name in
       dt <- call (get_solar_date year 3 10) ;;
       king_hung_date <-
         call (mk_date (year_of dt) (month_of dt) (day_of dt)) ;;
       setitem king_hung_date name
     else ret tt) ;;
    (* Liberation Day/Reunification Day *)
    let name := liberation_name in
    libration_date <- call (mk_date year APR 30) ;;
    setitem libration_date name ;;
    (* International Labor Day *)
    let name := labor_name in
    labor_date <- call (mk_date year MAY 1) ;;
    setitem labor_date name ;;
    (* Independence Day *)
    let name := independence_name in
    independence_date <- call (mk_date year SEP 2) ;;
    setitem independence_date name
  )%method.

(** A fresh object, as the base class builds one per country and year. *)
Definition fresh (obs : bool) : HolidayBase := Self obs [].

(** The outcome of [_populate(year)] on a fresh object: what the call
    returned or raised, and the object as the call left it. *)
Definition populated (obs : bool) (year : Z) : result unit * HolidayBase :=
  _populate year (fresh obs).

(* ===================================================================== *)
(** ** Vocabulary of the statements *)
(* ===================================================================== *)

(** The sum of a list of day counts. *)
Definition zsum (l : list Z) : Z := fold_right Z.add 0 l.

(** Collect the results of [f] over a list, the first exception winning. *)
Fixpoint collect (f : Z -> result Z) (l : list Z) : result (list Z) :=
  match l with
  | [] => Ok []
  | i :: l' => d <- f i ;; ds <- collect f l' ;; Ok (d :: ds)
  end.

(** The table entry of a supported year. *)
Definition entry_of (year : Z) : Z :=
  nth (Z.to_nat (year - START_YEAR)) g_lunar_month_days 0.

(** What the table holds, year by year: the leap-month field is an index
    from 1 to 13 or the no-leap value, bit 0 is never set, and the year
    length is that of twelve or thirteen months of 29 or 30 days. *)
Definition entry_ok (year : Z) : bool :=
  match get_leap_month year, lunar_year_days year with
  | Ok lm, Ok n =>
      (((1 <=? lm) && (lm <=? 13)) || (lm =? 0x0F))
      && negb (Z.testbit (entry_of year) 0)
      && (if lm =? 0x0F then (353 <=? n) && (n <=? 355)
          else (383 <=? n) && (n <=? 385))
  | _, _ => false
  end.

(** The day offset as the specification words it: the lengths of the years
    from [first_year] up to but not including [year], the lengths of the
    months before [month] (one month more when [month] is numerically
    greater than the leap-month index), and [day - 1]. *)
Definition spec_span_days (first_year year month day : Z) : result Z :=
  yds <- collect lunar_year_days (range first_year year) ;;
  lm <- get_leap_month year ;;
  mds <- collect (lunar_month_days year)
                 (range 1 (if month <=? lm then month else month + 1)) ;;
  Ok (zsum yds + zsum mds + (day - 1)).

(** The lunar New Year of a supported year, checked against the window
    from 11 days before to 19 days after February 1st of that year. *)
Definition tet_ok (year : Z) : bool :=
  match get_solar_date year 1 1 with
  | Ok d =>
      (year_of d =? year)
      && (-11 <=? toordinal d - toordinal (Date year 2 1))
      && (toordinal d - toordinal (Date year 2 1) <=? 19)
  | Raise _ => false
  end.

(** No date occurs twice in [l]. *)
Fixpoint nodupb (l : list date) : bool :=
  match l with
  | [] => true
  | d :: l' => negb (existsb (date_eqb d) l') && nodupb l'
  end.

(** Equality of map entries and of sequences of entries. *)
Definition entry_eqb (a b : date * string) : bool :=
  date_eqb (fst a) (fst b) && String.eqb (snd a) (snd b).

Fixpoint entries_eqb (l1 l2 : list (date * string)) : bool :=
  match l1, l2 with
  | [], [] => true
  | a :: l1', b :: l2' => entry_eqb a b && entries_eqb l1' l2'
  | _, _ => false
  end.

(** The outcome [o] of a lookup is the name [n]. *)
Definition bound_to (n : string) (o : option string) : bool :=
  match o with
  | Some n' => String.eqb n' n
  | None => false
  end.

(** The entries of a map that carry one of the six lunar New Year names. *)
Definition is_tet_name (n : string) : bool := existsb (String.eqb n) tet_names.

Definition tet_entries (m : list (date * string)) : list (date * string) :=
  filter (fun e => is_tet_name (snd e)) m.

(** The calendar date [i] days after [d] ([-i] days before, for [i < 0]). *)
Definition plus_days (d : date) (i : Z) : date := _ord2ymd (toordinal d + i).

(** The six entries of the lunar New Year window around [dt], from the eve
    to the fifth day. *)
Definition six_days (dt : date) : list (date * string) :=
  [ (plus_days dt (-1), "Vietnamese New Year's Eve");
    (plus_days dt 0, "Vietnamese New Year");
    (plus_days dt 1, "The second day of Tet Holiday");
    (plus_days dt 2, "The third day of Tet Holiday");
    (plus_days dt 3, "The forth day of Tet Holiday");
    (plus_days dt 4, "The fifth day of Tet Holiday") ].

(** The lunar New Year rule on one year: nothing with [observed] off, the
    six days with it on, each bound to its date and one day apart. *)
Definition tet_rule_ok (year : Z) : bool :=
  match get_solar_date year 1 1, populated true year, populated false year with
  | Ok dt, (Ok tt, on), (Ok tt, off) =>
      entries_eqb (tet_entries (assignments off)) []
      && entries_eqb (tet_entries (assignments on)) (six_days dt)
      && forallb (fun e => bound_to (snd e) (lookup (fst e) (items on)))
                 (six_days dt)
      && forallb (fun i => toordinal (plus_days dt i) =? toordinal dt + i)
                 (range (-1) 5)
  | _, _, _ => false
  end.

(** The assignments of one year: no repeated date with [observed] off;
    with it on, January 1st assigned twice and nothing else repeated. *)
Definition assignments_ok (year : Z) : bool :=
  let jan1 := (Date year JAN 1, new_year_name) in
  match populated false year, populated true year with
  | (Ok tt, off), (Ok tt, on) =>
      nodupb (map fst (assignments off))
      && match assignments on with
         | a :: b :: later =>
             entry_eqb a jan1 && entry_eqb b jan1
             && nodupb (Date year JAN 1 :: map fst later)
         | _ => false
         end
  | _, _ => false
  end.

(** The name the shifted New Year entry is written under. *)
Definition observed_name : string := new_year_name ++ " observed".

(** The entries of a map written under the name [n]. *)
Definition entries_named (n : string) (m : list (date * string))
  : list (date * string) :=
  filter (fun e => String.eqb (snd e) n) m.

(** The shifted entry the New Year rule adds, if any. *)
Definition shifted (obs : bool) (year : Z) : list (date * string) :=
  let first_date := Date year JAN 1 in
  if obs && (weekday first_date =? SAT) then [(Date year JAN 3, observed_name)]
  else if obs && (weekday first_date =? SUN) then
    [(Date year JAN 2, observed_name)]
  else [].

(** The New Year rule on one year: January 1st bound to the New Year name,
    and under the suffixed name exactly the shifted entry, bound to its
    date. *)
Definition new_year_ok (obs : bool) (year : Z) : bool :=
  let self := snd (populated obs year) in
  bound_to new_year_name (lookup (Date year JAN 1) (items self))
  && entries_eqb (entries_named observed_name (assignments self))
                 (shifted obs year)
  && forallb (fun e => bound_to (snd e) (lookup (fst e) (items self)))
             (shifted obs year).

(** One and two days after January 1st are January 2nd and 3rd. *)
Definition january_shift_ok (year : Z) : bool :=
  match add_rd_days (Date year JAN 1) 2, add_rd_days (Date year JAN 1) 1 with
  | Ok d3, Ok d2 =>
      date_eqb d3 (Date year JAN 3) && date_eqb d2 (Date year JAN 2)
  | _, _ => false
  end.

(** The entries of the New Year rule, newest first. *)
Definition new_year_block (obs : bool) (year : Z) : list (date * string) :=
  if obs then
    (shifted obs year
     ++ [(Date year JAN 1, new_year_name); (Date year JAN 1, new_year_name)])%list
  else [(Date year JAN 1, new_year_name)].


(** The calendar date [d] has ordinal [n] and passes the field check of the
    [date] constructor. *)
Definition date_ok (n : Z) (d : date) : bool :=
  (toordinal d =? n)
  && match mk_date (year_of d) (month_of d) (day_of d) with
     | Ok d' => date_eqb d' d
     | Raise _ => false
     end.

(** The first days of the months of one year: every table slot of the year
    starts on an ordinal that is the ordinal of its own calendar date. *)
Definition month_starts_ok (year : Z) : bool :=
  match collect lunar_year_days (range START_YEAR year) with
  | Ok yds =>
      forallb
        (fun stop =>
           match collect (lunar_month_days year) (range 1 stop) with
           | Ok mds =>
               (fun o => date_ok o (_ord2ymd o))
                 (toordinal SOLAR_START_DATE + (zsum yds + zsum mds))
           | Raise _ => false
           end)
        (range 1 15)
  | Raise _ => false
  end.

(** The commemoration-day entry of a year, if the rule applies. *)
Definition hung_kings_entries (year : Z) : list (date * string) :=
  if year >=? 2007 then
    match get_solar_date year 3 10 with
    | Ok dt => [(dt, hung_kings_name)]
    | Raise _ => []
    end
  else [].

(** The three fixed-date entries of a year, in the order they are written. *)
Definition fixed_entries (year : Z) : list (date * string) :=
  [ (Date year APR 30, liberation_name);
    (Date year MAY 1, labor_name);
    (Date year SEP 2, independence_name) ].

Definition is_fixed_name (n : string) : bool :=
  existsb (String.eqb n) [liberation_name; labor_name; independence_name].

(** Every entry of [l] is the binding of its date in [m]. *)
Definition all_bound (l m : list (date * string)) : bool :=
  forallb (fun e => bound_to (snd e) (lookup (fst e) m)) l.

(** The commemoration and fixed-date rules on the object a call left, and
    the Gregorian year of every date written. *)
Definition rules_hold (year : Z) (hk : list (date * string))
           (self : HolidayBase) : bool :=
  entries_eqb (entries_named hung_kings_name (assignments self)) hk
  && all_bound hk (items self)
  && entries_eqb (filter (fun e => is_fixed_name (snd e)) (assignments self))
                 (fixed_entries year)
  && all_bound (fixed_entries year) (items self)
  && forallb (fun e => year_of (fst e) =? year) (items self).

(** The rules on one year, for both values of [observed], and: what
    [observed] off binds, [observed] on binds the same way. *)
Definition rules_ok (year : Z) : bool :=
  match populated false year, populated true year with
  | (Ok tt, off), (Ok tt, on) =>
      (fun hk => rules_hold year hk off && rules_hold year hk on)
        (hung_kings_entries year)
      && all_bound (items off) (items on)
  | _, _ => false
  end.


(* ===================================================================== *)
(** ** Subscripts, ranges and loops *)
(* ===================================================================== *)

Section Builtins.

Context {A : Type}.
Implicit Types (l : list A) (i : Z).

Lemma getitem_front l i (d : A) :
  0 <= i < Z.of_nat (length l) -> getitem l i = Ok (nth (Z.to_nat i) l d).
Proof.
  intros Hi. unfold getitem.
  rewrite (proj2 (Z.ltb_ge i 0)) by lia.
  rewrite (proj2 (Z.ltb_ge i 0)) by lia.
  rewrite (proj2 (Z.leb_gt _ i)) by lia.
  cbn [orb]. rewrite (nth_error_nth' l d) by lia. reflexivity.
Qed.

Lemma getitem_back l i :
  - Z.of_nat (length l) <= i < 0 ->
  getitem l i = getitem l (i + Z.of_nat (length l)).
Proof.
  intros Hi. unfold getitem.
  rewrite (proj2 (Z.ltb_lt i 0)) by lia.
  rewrite !(proj2 (Z.ltb_ge (i + Z.of_nat (length l)) 0)) by lia.
  reflexivity.
Qed.

Lemma getitem_past l i :
  Z.of_nat (length l) <= i -> getitem l i = Raise IndexError.
Proof.
  intros Hi. unfold getitem.
  rewrite (proj2 (Z.ltb_ge i 0)) by lia.
  rewrite (proj2 (Z.leb_le _ i)) by lia.
  now rewrite orb_true_r.
Qed.

Lemma getitem_before l i :
  i < - Z.of_nat (length l) -> getitem l i = Raise IndexError.
Proof.
  intros Hi. unfold getitem.
  rewrite (proj2 (Z.ltb_lt i 0)) by lia.
  rewrite (proj2 (Z.ltb_lt (i + Z.of_nat (length l)) 0)) by lia.
  reflexivity.
Qed.

End Builtins.

Lemma range_In a b y : In y (range a b) <-> a <= y < b.
Proof.
  unfold range. rewrite in_map_iff. split.
  - intros (k & <- & Hk). apply in_seq in Hk. lia.
  - intros Hy. exists (Z.to_nat (y - a)). split; [lia |].
    apply in_seq. lia.
Qed.

Lemma range_empty a b : b <= a -> range a b = [].
Proof.
  intros H. unfold range.
  replace (Z.to_nat (b - a)) with 0%nat by lia. reflexivity.
Qed.

Lemma range_cons a b : a < b -> range a b = a :: range (a + 1) b.
Proof.
  intros H. unfold range.
  replace (Z.to_nat (b - a)) with (S (Z.to_nat (b - (a + 1)))) by lia.
  cbn [seq map]. f_equal; [lia |].
  rewrite <- seq_shift, map_map. apply map_ext. intros k. lia.
Qed.

Lemma range_app a b c : a <= b <= c -> range a c = (range a b ++ range b c)%list.
Proof.
  intros H. unfold range.
  replace (Z.to_nat (c - a)) with (Z.to_nat (b - a) + Z.to_nat (c - b))%nat
    by lia.
  rewrite seq_app, map_app. f_equal.
  cbn [Nat.add]. rewrite <- (Nat.add_0_r (Z.to_nat (b - a))) at 1.
  rewrite Nat.add_comm.
  generalize (Z.to_nat (c - b)) as n. generalize 0%nat as s.
  intros s n. revert s. induction n as [| n IH]; intros s; cbn [seq map].
  - reflexivity.
  - f_equal; [lia |]. apply (IH (S s)).
Qed.

(** A property checked on every element of a range holds on the range. *)
Lemma forallb_range (f : Z -> bool) a b :
  forallb f (range a b) = true -> forall y, a <= y < b -> f y = true.
Proof.
  intros H y Hy. rewrite forallb_forall in H. apply H, range_In, Hy.
Qed.

Lemma for_app {S} (l1 l2 : list Z) (body : Z -> S -> result S) (s : S) :
  for_ (l1 ++ l2)%list body s = Py.bind (for_ l1 body s) (for_ l2 body).
Proof.
  revert s. induction l1 as [| i l1 IH]; intros s; cbn [app for_].
  - reflexivity.
  - destruct (body i s) as [s' | e]; cbn [Py.bind]; [apply IH | reflexivity].
Qed.

(** An accumulating loop adds up what its body looks up. *)
Lemma for_accumulate (f : Z -> result Z) (l : list Z) (acc : Z) :
  for_ l (fun i acc => d <- f i ;; Ok (acc + d)) acc
  = (ds <- collect f l ;; Ok (acc + zsum ds)).
Proof.
  revert acc. induction l as [| i l IH]; intros acc; cbn [for_ collect].
  - cbn. f_equal. lia.
  - destruct (f i) as [d | e]; cbn [Py.bind]; [| reflexivity].
    rewrite IH. destruct (collect f l) as [ds | e]; cbn [Py.bind zsum fold_right].
    + f_equal. unfold zsum. lia.
    + reflexivity.
Qed.

Lemma collect_total (f : Z -> result Z) (P : Z -> Prop) (l : list Z) :
  (forall i, In i l -> exists d, f i = Ok d /\ P d) ->
  exists ds, collect f l = Ok ds /\ Forall P ds /\ length ds = length l.
Proof.
  induction l as [| i l IH]; intros H; cbn [collect].
  - exists []. repeat split. constructor.
  - destruct (H i (or_introl eq_refl)) as (d & Hd & HP).
    destruct IH as (ds & Hds & HF & Hlen).
    { intros j Hj. apply H. now right. }
    exists (d :: ds). rewrite Hd, Hds. cbn. repeat split.
    + now constructor.
    + now rewrite Hlen.
Qed.

Lemma zsum_bounds (lo hi : Z) (ds : list Z) :
  Forall (fun d => lo <= d <= hi) ds ->
  lo * Z.of_nat (length ds) <= zsum ds <= hi * Z.of_nat (length ds).
Proof.
  induction 1 as [| d ds Hd _ IH]; cbn [zsum fold_right length].
  - lia.
  - fold (zsum ds). lia.
Qed.

Lemma range_length a b : length (range a b) = Z.to_nat (b - a).
Proof. unfold range. now rewrite length_map, length_seq. Qed.

(* ===================================================================== *)
(** ** The table and its three lookup helpers *)
(* ===================================================================== *)

Lemma table_length : Z.of_nat (length g_lunar_month_days) = 199.
Proof. reflexivity. Qed.

Lemma END_YEAR_value : END_YEAR = 2099.
Proof. reflexivity. Qed.

Section SupportedYear.

Variable year : Z.
Hypothesis Hyear : START_YEAR <= year <= END_YEAR.

Lemma getitem_entry :
  getitem g_lunar_month_days (year - START_YEAR) = Ok (entry_of year).
Proof.
  apply getitem_front. rewrite table_length.
  rewrite END_YEAR_value in Hyear. unfold START_YEAR in *. lia.
Qed.

Lemma get_leap_month_entry :
  get_leap_month year = Ok (Z.land (Z.shiftr (entry_of year) 16) 0x0F).
Proof. unfold get_leap_month. now rewrite getitem_entry. Qed.

Lemma lunar_month_days_entry (m : Z) :
  0 <= m ->
  lunar_month_days year m
  = Ok (29 + Z.land (Z.shiftr (entry_of year) m) 0x01).
Proof.
  intros Hm. unfold lunar_month_days. rewrite getitem_entry.
  cbn [Py.bind]. unfold rshift.
  now rewrite (proj2 (Z.ltb_ge m 0)) by lia.
Qed.

End SupportedYear.

(** The low bit picked by [& 0x01] after a shift by [m] is bit [m]. *)
Lemma land_shiftr_bit (e m : Z) :
  0 <= m -> Z.land (Z.shiftr e m) 0x01 = Z.b2z (Z.testbit e m).
Proof.
  intros Hm. change 1 with (Z.ones 1).
  rewrite Z.land_ones by lia. change (2 ^ 1) with 2.
  rewrite <- Z.bit0_mod, Z.shiftr_spec by lia. reflexivity.
Qed.

(** The four bits picked by [>> 16 & 0x0F] are bits 16 to 19. *)
Lemma land_shiftr_nibble (e i : Z) :
  0 <= i ->
  Z.testbit (Z.land (Z.shiftr e 16) 0x0F) i
  = if i <? 4 then Z.testbit e (16 + i) else false.
Proof.
  intros Hi. change 15 with (Z.ones 4).
  rewrite Z.land_spec, Z.shiftr_spec by lia.
  destruct (Z.ltb_spec i 4) as [Hlt | Hge].
  - rewrite Z.ones_spec_low by lia. rewrite andb_true_r. f_equal. lia.
  - rewrite Z.ones_spec_high by lia. apply andb_false_r.
Qed.

Lemma table_checked : forallb entry_ok (range START_YEAR (END_YEAR + 1)) = true.
Proof. vm_compute. reflexivity. Qed.

Lemma entry_ok_supported (year : Z) :
  START_YEAR <= year <= END_YEAR -> entry_ok year = true.
Proof. intros H. apply (forallb_range _ _ _ table_checked). lia. Qed.

Lemma lunar_year_days_supported (year : Z) :
  START_YEAR <= year <= END_YEAR ->
  exists n, lunar_year_days year = Ok n /\ 353 <= n <= 385.
Proof.
  intros H. pose proof (entry_ok_supported year H) as Hok.
  unfold entry_ok in Hok.
  destruct (get_leap_month year) as [lm |]; [| discriminate].
  destruct (lunar_year_days year) as [n |]; [| discriminate].
  exists n. split; [reflexivity |].
  apply andb_prop in Hok as [_ Hn].
  destruct (lm =? 15); apply andb_prop in Hn as [H1 H2]; lia.
Qed.

Lemma lunar_month_days_cases (year k : Z) :
  START_YEAR <= year <= END_YEAR -> 0 <= k ->
  lunar_month_days year k = Ok 29 \/ lunar_month_days year k = Ok 30.
Proof.
  intros Hy Hk. rewrite (lunar_month_days_entry year Hy k Hk).
  rewrite land_shiftr_bit by exact Hk.
  destruct (Z.testbit (entry_of year) k); cbn [Z.b2z]; [right | left];
    reflexivity.
Qed.

(** C10. For every supported year, [lunar_month_days] answers 29 or 30 for
    every month index from 1 to 13 and never raises; in particular month 13
    is answered in years whose leap-month field is the no-leap value 15,
    for which nothing in the lookup tests. *)
Theorem lunar_month_days_total (year m : Z) :
  START_YEAR <= year <= END_YEAR ->
  1 <= m <= 13 ->
  (lunar_month_days year m = Ok 29 \/ lunar_month_days year m = Ok 30)
  /\ (get_leap_month year = Ok 0x0F ->
      lunar_month_days year 13 = Ok 29 \/ lunar_month_days year 13 = Ok 30).
Proof.
  intros Hy Hm. split.
  - apply lunar_month_days_cases; [exact Hy | lia].
  - intros _. apply lunar_month_days_cases; [exact Hy | lia].
Qed.

Lemma lunar_month_days_total_witness :
  (START_YEAR <= 1901 <= END_YEAR) /\ (1 <= 13 <= 13)
  /\ get_leap_month 1901 = Ok 0x0F
  /\ (lunar_month_days 1901 13 = Ok 29 \/ lunar_month_days 1901 13 = Ok 30).
Proof.
  assert (Hy : START_YEAR <= 1901 <= END_YEAR)
    by (vm_compute; split; discriminate).
  assert (Hm : 1 <= 13 <= 13) by lia.
  split; [exact Hy |]. split; [exact Hm |]. split; [reflexivity |].
  exact (proj2 (lunar_month_days_total 1901 13 Hy Hm) eq_refl).
Defined.

(** C4, as the code has it.  For every supported year the table entry holds
    the month lengths in bits 1 to 13, month [m] in bit [m] (30 days when
    the bit is set, 29 when it is clear) and bit 0 unused, and the
    leap-month index, 1 to 13 or the no-leap value 15, in bits 16 to 19;
    [lunar_month_days] and [get_leap_month] read exactly these bits. *)
Theorem table_encoding (year : Z) :
  START_YEAR <= year <= END_YEAR ->
  exists e lm,
    getitem g_lunar_month_days (year - START_YEAR) = Ok e
    /\ (forall m, 1 <= m <= 13 ->
        lunar_month_days year m = Ok (if Z.testbit e m then 30 else 29))
    /\ Z.testbit e 0 = false
    /\ get_leap_month year = Ok lm
    /\ (forall i, 0 <= i ->
        Z.testbit lm i = if i <? 4 then Z.testbit e (16 + i) else false)
    /\ (1 <= lm <= 13 \/ lm = 0x0F).
Proof.
  intros Hy. exists (entry_of year), (Z.land (Z.shiftr (entry_of year) 16) 15).
  pose proof (entry_ok_supported year Hy) as Hok. unfold entry_ok in Hok.
  rewrite (get_leap_month_entry year Hy) in Hok.
  destruct (lunar_year_days year) as [n |]; [| discriminate].
  apply andb_prop in Hok as [Hok _]. apply andb_prop in Hok as [Hlm Hbit0].
  split; [apply getitem_entry, Hy |].
  split.
  { intros m Hm. rewrite (lunar_month_days_entry year Hy m) by lia.
    rewrite land_shiftr_bit by lia.
    now destruct (Z.testbit (entry_of year) m). }
  split; [now apply negb_true_iff in Hbit0 |].
  split; [apply get_leap_month_entry, Hy |].
  split; [intros i Hi; apply land_shiftr_nibble, Hi |].
  apply orb_prop in Hlm as [Hlm | Hlm]; [left | right].
  - apply andb_prop in Hlm as [H1 H2]. lia.
  - now apply Z.eqb_eq in Hlm.
Qed.

Lemma table_encoding_witness :
  (START_YEAR <= 2023 <= END_YEAR)
  /\ exists e lm,
      getitem g_lunar_month_days (2023 - START_YEAR) = Ok e
      /\ (forall m, 1 <= m <= 13 ->
          lunar_month_days 2023 m = Ok (if Z.testbit e m then 30 else 29))
      /\ Z.testbit e 0 = false
      /\ get_leap_month 2023 = Ok lm
      /\ (forall i, 0 <= i ->
          Z.testbit lm i = if i <? 4 then Z.testbit e (16 + i) else false)
      /\ (1 <= lm <= 13 \/ lm = 0x0F).
Proof.
  assert (Hy : START_YEAR <= 2023 <= END_YEAR)
    by (vm_compute; split; discriminate).
  split; [exact Hy | exact (table_encoding 2023 Hy)].
Defined.

(** C4 as stated fails: it puts month [m] in bit [m - 1].  In 1901 the
    entry is 0xF0EA4, whose bit 1 is clear, which would make month 2 a
    29-day month; the lookup reads bit 2 and answers 30. *)
Lemma table_encoding_bit_m_minus_1_fails :
  getitem g_lunar_month_days (1901 - START_YEAR) = Ok 0xF0EA4
  /\ Z.testbit 0xF0EA4 (2 - 1) = false
  /\ lunar_month_days 1901 2 = Ok 30
  /\ lunar_month_days 1901 2
     <> Ok (if Z.testbit 0xF0EA4 (2 - 1) then 30 else 29).
Proof. repeat split; vm_compute; congruence. Qed.

(** C5. For every supported year [lunar_year_days] lies between 353 and
    385; it lies between 383 and 385 exactly when the leap-month field is
    not the no-leap value 15, and between 353 and 355 otherwise. *)
Theorem lunar_year_days_bounds (year : Z) :
  START_YEAR <= year <= END_YEAR ->
  exists n lm,
    lunar_year_days year = Ok n /\ get_leap_month year = Ok lm
    /\ 353 <= n <= 385
    /\ (383 <= n <= 385 <-> lm <> 0x0F)
    /\ (353 <= n <= 355 <-> lm = 0x0F).
Proof.
  intros Hy. pose proof (entry_ok_supported year Hy) as Hok.
  unfold entry_ok in Hok.
  destruct (get_leap_month year) as [lm |]; [| discriminate].
  destruct (lunar_year_days year) as [n |]; [| discriminate].
  exists n, lm. apply andb_prop in Hok as [_ Hn].
  destruct (Z.eqb_spec lm 15) as [Heq | Hne];
    apply andb_prop in Hn as [H1 H2];
    repeat split; intros; lia.
Qed.

Lemma lunar_year_days_bounds_witness :
  (START_YEAR <= 1965 <= END_YEAR)
  /\ exists n lm,
      lunar_year_days 1965 = Ok n /\ get_leap_month 1965 = Ok lm
      /\ 353 <= n <= 385
      /\ (383 <= n <= 385 <-> lm <> 0x0F)
      /\ (353 <= n <= 355 <-> lm = 0x0F).
Proof.
  assert (Hy : START_YEAR <= 1965 <= END_YEAR)
    by (vm_compute; split; discriminate).
  split; [exact Hy | exact (lunar_year_days_bounds 1965 Hy)].
Defined.

(* ===================================================================== *)
(** ** Lunar date to Gregorian date *)
(* ===================================================================== *)

Lemma SOLAR_START_DATE_ordinal : toordinal SOLAR_START_DATE = 694010.
Proof. reflexivity. Qed.

Lemma get_solar_date_span (year month day : Z) :
  START_YEAR <= year <= END_YEAR ->
  1 <= month <= 13 ->
  1 <= day <= 30 ->
  exists span,
    spec_span_days START_YEAR year month day = Ok span
    /\ 0 <= span <= 385 * 199 + 30 * 13 + 29
    /\ get_solar_date year month day
       = Ok (_ord2ymd (toordinal SOLAR_START_DATE + span)).
Proof.
  intros Hy Hm Hd.
  pose proof END_YEAR_value as HE.
  destruct (collect_total lunar_year_days (fun d => 0 <= d <= 385)
              (range START_YEAR year)) as (yds & Hyds & Hyb & Hyl).
  { intros y Hin. apply range_In in Hin.
    destruct (lunar_year_days_supported y) as (n & Hn & Hb); [lia |].
    exists n. split; [exact Hn | lia]. }
  apply zsum_bounds in Hyb. rewrite Hyl, range_length in Hyb.
  set (lm := Z.land (Z.shiftr (entry_of year) 16) 15).
  set (stop := if month <=? lm then month else month + 1).
  assert (Hstop : month + of_bool (month >? lm) = stop).
  { unfold stop, of_bool. rewrite Z.gtb_ltb.
    destruct (Z.ltb_spec lm month), (Z.leb_spec month lm); lia. }
  assert (Hstop_le : stop <= month + 1).
  { unfold stop. destruct (month <=? lm); lia. }
  destruct (collect_total (lunar_month_days year) (fun d => 0 <= d <= 30)
              (range 1 stop)) as (mds & Hmds & Hmb & Hml).
  { intros m Hin. apply range_In in Hin.
    destruct (lunar_month_days_cases year m Hy) as [H29 | H30]; [lia | |].
    - exists 29. split; [exact H29 | lia].
    - exists 30. split; [exact H30 | lia]. }
  apply zsum_bounds in Hmb. rewrite Hml, range_length in Hmb.
  exists (zsum yds + zsum mds + (day - 1)).
  assert (Hspan : 0 <= zsum yds + zsum mds + (day - 1)
                  <= 385 * 199 + 30 * 13 + 29).
  { unfold START_YEAR in *. lia. }
  split; [| split; [exact Hspan |]].
  - unfold spec_span_days. rewrite Hyds. cbn [Py.bind].
    rewrite (get_leap_month_entry year Hy). cbn [Py.bind].
    fold lm. fold stop. rewrite Hmds. reflexivity.
  - unfold get_solar_date.
    rewrite for_accumulate, Hyds. cbn [Py.bind].
    rewrite (get_leap_month_entry year Hy). cbn [Py.bind].
    fold lm. rewrite Hstop.
    rewrite for_accumulate, Hmds. cbn [Py.bind].
    replace (0 + zsum yds + zsum mds + (day - 1))
      with (zsum yds + zsum mds + (day - 1)) by lia.
    unfold timedelta.
    rewrite (proj2 (Z.leb_le (-999999999) _)) by lia.
    rewrite (proj2 (Z.leb_le _ 999999999)) by lia.
    cbn [andb Py.bind]. unfold add.
    rewrite SOLAR_START_DATE_ordinal.
    rewrite (proj2 (Z.ltb_lt 0 _)) by lia.
    rewrite (proj2 (Z.leb_le _ _MAXORDINAL)) by (unfold _MAXORDINAL; lia).
    reflexivity.
Qed.

(** C1, as the code has it.  For every supported lunar year and valid lunar
    date, the day offset inside the year is the sum of [lunar_month_days]
    over months [1 .. month-1] when [month <= leap_month], and over
    [1 .. month] when [month] is numerically greater; the result is the
    anchor date plus the sum of [lunar_year_days] over the years [y] with
    [START_YEAR <= y < year] ([START_YEAR] included), plus that sum, plus
    [day - 1] days. *)
Theorem get_solar_date_offset (year month day : Z) :
  START_YEAR <= year <= END_YEAR ->
  1 <= month <= 12 ->
  1 <= day <= 30 ->
  exists span,
    spec_span_days START_YEAR year month day = Ok span
    /\ add SOLAR_START_DATE span
       = Ok (_ord2ymd (toordinal SOLAR_START_DATE + span))
    /\ get_solar_date year month day
       = Ok (_ord2ymd (toordinal SOLAR_START_DATE + span)).
Proof.
  intros Hy Hm Hd.
  destruct (get_solar_date_span year month day Hy) as (span & Hs & Hb & Hg);
    [lia | exact Hd |].
  exists span. split; [exact Hs |]. split; [| exact Hg].
  unfold add. rewrite SOLAR_START_DATE_ordinal.
  rewrite (proj2 (Z.ltb_lt 0 _)) by lia.
  rewrite (proj2 (Z.leb_le _ _MAXORDINAL)) by (unfold _MAXORDINAL; lia).
  reflexivity.
Qed.

Lemma get_solar_date_offset_witness :
  (START_YEAR <= 2023 <= END_YEAR) /\ (1 <= 3 <= 12) /\ (1 <= 10 <= 30)
  /\ exists span,
      spec_span_days START_YEAR 2023 3 10 = Ok span
      /\ add SOLAR_START_DATE span
         = Ok (_ord2ymd (toordinal SOLAR_START_DATE + span))
      /\ get_solar_date 2023 3 10
         = Ok (_ord2ymd (toordinal SOLAR_START_DATE + span)).
Proof.
  assert (Hy : START_YEAR <= 2023 <= END_YEAR)
    by (vm_compute; split; discriminate).
  assert (Hm : 1 <= 3 <= 12) by lia.
  assert (Hd : 1 <= 10 <= 30) by lia.
  split; [exact Hy |]. split; [exact Hm |]. split; [exact Hd |].
  exact (get_solar_date_offset 2023 3 10 Hy Hm Hd).
Defined.

(** C1 as stated fails: it sums the years strictly between [START_YEAR] and
    [year], which leaves [START_YEAR] itself out.  For lunar (1902, 1, 1)
    that sum is empty and the formula gives the anchor date, while the loop
    runs over [range(START_YEAR, year)], adds the 354 days of 1901 and
    answers 1902-02-08. *)
Lemma get_solar_date_strictly_between_fails :
  spec_span_days (START_YEAR + 1) 1902 1 1 = Ok 0
  /\ get_solar_date 1902 1 1 = Ok (Date 1902 2 8)
  /\ get_solar_date 1902 1 1
     <> Ok (_ord2ymd (toordinal SOLAR_START_DATE + 0)).
Proof. repeat split; vm_compute; congruence. Qed.

(** C2, evaluated.  The start anchor is exact.  The last supported lunar
    date (2099, 12, 30) converts to 2100-02-08, the date the comment above
    [SOLAR_END_DATE] gives, ten days before the constant
    [datetime(2100, 2, 18)]. *)
Theorem anchors_evaluated :
  get_solar_date START_YEAR 1 1 = Ok SOLAR_START_DATE
  /\ LUNAR_END_DATE = (2099, 12, 30)
  /\ get_solar_date 2099 12 30 = Ok (Date 2100 2 8)
  /\ SOLAR_END_DATE = Date 2100 2 18
  /\ get_solar_date 2099 12 30 <> Ok SOLAR_END_DATE
  /\ toordinal SOLAR_END_DATE - toordinal (Date 2100 2 8) = 10.
Proof. repeat split; vm_compute; congruence. Qed.

Lemma tet_checked : forallb tet_ok (range START_YEAR (END_YEAR + 1)) = true.
Proof. vm_compute. reflexivity. Qed.

Lemma new_year_in_window (year : Z) :
  START_YEAR <= year <= END_YEAR ->
  exists d,
    get_solar_date year 1 1 = Ok d /\ year_of d = year
    /\ -11 <= toordinal d - toordinal (Date year 2 1) <= 19.
Proof.
  intros Hy.
  assert (Hok : tet_ok year = true)
    by (apply (forallb_range _ _ _ tet_checked); lia).
  unfold tet_ok in Hok.
  destruct (get_solar_date year 1 1) as [d |]; [| discriminate].
  exists d. apply andb_prop in Hok as [Hok H3].
  apply andb_prop in Hok as [H1 H2]. repeat split; lia.
Qed.

Lemma toordinal_jan (year day : Z) :
  toordinal (Date year 1 day) = _days_before_year year + day.
Proof.
  unfold toordinal, _ymd2ord, _days_before_month. cbn [year_of month_of day_of].
  change (tbl _DAYS_BEFORE_MONTH 1) with 0. change (1 >? 2) with false.
  cbn [andb of_bool]. lia.
Qed.

Lemma toordinal_feb (year day : Z) :
  toordinal (Date year 2 day) = _days_before_year year + 31 + day.
Proof.
  unfold toordinal, _ymd2ord, _days_before_month. cbn [year_of month_of day_of].
  change (tbl _DAYS_BEFORE_MONTH 2) with 31. change (2 >? 2) with false.
  cbn [andb of_bool]. lia.
Qed.

Lemma _days_before_year_step (y1 y2 : Z) :
  y1 < y2 -> _days_before_year y1 + 365 <= _days_before_year y2.
Proof.
  intros H. unfold _days_before_year. cbv zeta.
  Z.div_mod_to_equations. lia.
Qed.

(** C6, as the code has it.  For every supported year the lunar New Year
    falls in that Gregorian year between January 21 and February 20, that
    is from 11 days before to 19 days after February 1st (day 21 to day 51
    of the year); and it is strictly increasing in the year. *)
Theorem new_year_window (y1 y2 : Z) :
  START_YEAR <= y1 <= END_YEAR ->
  START_YEAR <= y2 <= END_YEAR ->
  exists d1 d2,
    get_solar_date y1 1 1 = Ok d1 /\ get_solar_date y2 1 1 = Ok d2
    /\ year_of d1 = y1
    /\ -11 <= toordinal d1 - toordinal (Date y1 2 1) <= 19
    /\ 21 <= toordinal d1 - toordinal (Date y1 1 1) + 1 <= 51
    /\ (y1 < y2 -> toordinal d1 < toordinal d2).
Proof.
  intros H1 H2.
  destruct (new_year_in_window y1 H1) as (d1 & Hd1 & Hyr1 & Hw1).
  destruct (new_year_in_window y2 H2) as (d2 & Hd2 & _ & Hw2).
  exists d1, d2. rewrite toordinal_feb in Hw1, Hw2.
  rewrite toordinal_feb, toordinal_jan.
  repeat split; try assumption; try lia.
  intros Hlt. pose proof (_days_before_year_step y1 y2 Hlt). lia.
Qed.

Lemma new_year_window_witness :
  (START_YEAR <= 1985 <= END_YEAR) /\ (START_YEAR <= 2061 <= END_YEAR)
  /\ exists d1 d2,
      get_solar_date 1985 1 1 = Ok d1 /\ get_solar_date 2061 1 1 = Ok d2
      /\ year_of d1 = 1985
      /\ -11 <= toordinal d1 - toordinal (Date 1985 2 1) <= 19
      /\ 21 <= toordinal d1 - toordinal (Date 1985 1 1) + 1 <= 51
      /\ (1985 < 2061 -> toordinal d1 < toordinal d2).
Proof.
  assert (H1 : START_YEAR <= 1985 <= END_YEAR)
    by (vm_compute; split; discriminate).
  assert (H2 : START_YEAR <= 2061 <= END_YEAR)
    by (vm_compute; split; discriminate).
  split; [exact H1 |]. split; [exact H2 |].
  exact (new_year_window 1985 2061 H1 H2).
Defined.

(** C6 as stated fails: the lunar New Year is never 21 to 51 days away
    from February 1st.  In 1901 it is February 19, 18 days after it. *)
Lemma new_year_21_51_days_of_feb1_fails :
  get_solar_date 1901 1 1 = Ok (Date 1901 2 19)
  /\ toordinal (Date 1901 2 19) - toordinal (Date 1901 2 1) = 18
  /\ ~ (21 <= Z.abs (toordinal (Date 1901 2 19) - toordinal (Date 1901 2 1))
        <= 51).
Proof.
  split; [reflexivity |]. split; [reflexivity |].
  vm_compute. intros [H _]. apply H. reflexivity.
Qed.

(* ===================================================================== *)
(** ** Years the table does not cover *)
(* ===================================================================== *)

Lemma getitem_table_above (year : Z) :
  END_YEAR < year ->
  getitem g_lunar_month_days (year - START_YEAR) = Raise IndexError.
Proof.
  intros H. apply getitem_past. rewrite table_length.
  rewrite END_YEAR_value in H. unfold START_YEAR. lia.
Qed.

Lemma getitem_table_far_below (year : Z) :
  year < START_YEAR - 199 ->
  getitem g_lunar_month_days (year - START_YEAR) = Raise IndexError.
Proof.
  intros H. apply getitem_before. rewrite table_length.
  unfold START_YEAR in *. lia.
Qed.

(** A year less than [START_YEAR] by at most the table length gives a
    negative subscript, which reads the entry of the year 199 later. *)
Lemma getitem_table_wraps (year : Z) :
  START_YEAR - 199 <= year < START_YEAR ->
  getitem g_lunar_month_days (year - START_YEAR)
  = getitem g_lunar_month_days (year + 199 - START_YEAR).
Proof.
  intros H. rewrite getitem_back.
  - rewrite table_length. f_equal. lia.
  - rewrite table_length. unfold START_YEAR in *. lia.
Qed.

Lemma lookups_wrap (year : Z) :
  START_YEAR - 199 <= year < START_YEAR ->
  get_leap_month year = get_leap_month (year + 199)
  /\ (forall m, lunar_month_days year m = lunar_month_days (year + 199) m)
  /\ lunar_year_days year = lunar_year_days (year + 199).
Proof.
  intros H. pose proof (getitem_table_wraps year H) as Hw.
  assert (Hl : get_leap_month year = get_leap_month (year + 199))
    by (unfold get_leap_month; now rewrite Hw).
  split; [exact Hl |]. split.
  - intros m. unfold lunar_month_days. now rewrite Hw.
  - unfold lunar_year_days. now rewrite Hw, Hl.
Qed.

Lemma lookups_raise (year : Z) :
  getitem g_lunar_month_days (year - START_YEAR) = Raise IndexError ->
  get_leap_month year = Raise IndexError
  /\ (forall m, lunar_month_days year m = Raise IndexError)
  /\ lunar_year_days year = Raise IndexError.
Proof.
  intros H. unfold get_leap_month, lunar_month_days, lunar_year_days.
  rewrite H. cbn. auto.
Qed.

Lemma get_solar_date_raises (year month day : Z) :
  END_YEAR < year \/ year < START_YEAR - 199 ->
  get_solar_date year month day = Raise IndexError.
Proof.
  intros [Habove | Hbelow]; unfold get_solar_date.
  - rewrite END_YEAR_value in Habove.
    rewrite (range_app START_YEAR 2100 year) by (unfold START_YEAR; lia).
    rewrite for_app.
    assert (Hpre : exists n,
               for_ (range START_YEAR 2100)
                    (fun y span_days =>
                       d <- lunar_year_days y ;; Ok (span_days + d)) 0
               = Ok n) by (eexists; vm_compute; reflexivity).
    destruct Hpre as (n & ->). cbn [Py.bind].
    destruct (Z.eq_dec year 2100) as [-> | Hne].
    + (* the loop over the years ends; the leap-month lookup raises *)
      rewrite range_empty by lia. cbn [for_].
      replace (get_leap_month 2100) with (@Raise Z IndexError)
        by (vm_compute; reflexivity).
      reflexivity.
    + (* the loop over the years reaches 2100 and raises there *)
      rewrite (range_cons 2100 year) by lia. cbn [for_].
      replace (lunar_year_days 2100) with (@Raise Z IndexError)
        by (vm_compute; reflexivity).
      reflexivity.
  - rewrite range_empty by (unfold START_YEAR in *; lia). cbn [for_ Py.bind].
    destruct (lookups_raise year (getitem_table_far_below year Hbelow))
      as (-> & _). reflexivity.
Qed.

(* ===================================================================== *)
(** ** Reading the holiday map *)
(* ===================================================================== *)

Lemma date_eqb_eq (a b : date) : date_eqb a b = true <-> a = b.
Proof.
  destruct a as [ya ma da], b as [yb mb db]. unfold date_eqb.
  cbn [year_of month_of day_of]. rewrite !andb_true_iff, !Z.eqb_eq.
  split; [intros [[-> ->] ->]; reflexivity | intros [= -> -> ->]; auto].
Qed.

Lemma existsb_date_In (d : date) (l : list date) :
  existsb (date_eqb d) l = true <-> In d l.
Proof.
  rewrite existsb_exists. split.
  - intros (x & Hin & Heq). apply date_eqb_eq in Heq. now subst.
  - intros Hin. exists d. split; [exact Hin | now apply date_eqb_eq].
Qed.

Lemma nodupb_NoDup (l : list date) : nodupb l = true <-> NoDup l.
Proof.
  induction l as [| d l IH]; cbn [nodupb].
  - split; [constructor | reflexivity].
  - rewrite andb_true_iff, negb_true_iff, IH. split.
    + intros [Hn Hl]. constructor; [| exact Hl].
      intros Hin. apply existsb_date_In in Hin. congruence.
    + intros Hnd. inversion Hnd as [| ? ? Hn Hl]; subst. split; [| exact Hl].
      destruct (existsb (date_eqb d) l) eqn:E; [| reflexivity].
      apply existsb_date_In in E. contradiction.
Qed.

Lemma entries_eqb_eq (l1 l2 : list (date * string)) :
  entries_eqb l1 l2 = true -> l1 = l2.
Proof.
  revert l2. induction l1 as [| [d1 n1] l1 IH]; intros [| [d2 n2] l2];
    cbn [entries_eqb]; try discriminate; [reflexivity |].
  unfold entry_eqb. cbn [fst snd]. rewrite !andb_true_iff.
  intros [[Hd Hn] Hl]. apply date_eqb_eq in Hd. apply String.eqb_eq in Hn.
  subst. f_equal. apply IH, Hl.
Qed.

Lemma bound_to_eq (n : string) (o : option string) :
  bound_to n o = true -> o = Some n.
Proof.
  destruct o as [n' |]; cbn; [| discriminate].
  intros H. apply String.eqb_eq in H. now subst.
Qed.

(* ===================================================================== *)
(** ** The rule engine on supported years *)
(* ===================================================================== *)

Lemma tet_rule_checked :
  forallb tet_rule_ok (range START_YEAR (END_YEAR + 1)) = true.
Proof. vm_compute. reflexivity. Qed.

(** C7. For every supported year, with [observed] off the map gets no entry
    under any of the six lunar New Year names; with [observed] on it gets
    exactly six, on the consecutive dates from one day before to four days
    after the solar date of lunar (year, 1, 1), each under its own name, and
    each is the binding of its date when the call returns. *)
Theorem tet_window_gated (year : Z) :
  START_YEAR <= year <= END_YEAR ->
  exists dt off on,
    get_solar_date year 1 1 = Ok dt
    /\ populated false year = (Ok tt, off)
    /\ populated true year = (Ok tt, on)
    /\ tet_entries (assignments off) = []
    /\ tet_entries (assignments on) = six_days dt
    /\ (forall d n, In (d, n) (six_days dt) -> lookup d (items on) = Some n)
    /\ (forall i, -1 <= i <= 4 ->
        toordinal (plus_days dt i) = toordinal dt + i).
Proof.
  intros Hy.
  assert (Hok : tet_rule_ok year = true)
    by (apply (forallb_range _ _ _ tet_rule_checked); lia).
  unfold tet_rule_ok in Hok.
  destruct (get_solar_date year 1 1) as [dt |]; [| discriminate].
  destruct (populated true year) as [[[] |] on]; [| discriminate].
  destruct (populated false year) as [[[] |] off]; [| discriminate].
  apply andb_prop in Hok as [Hok Hord]. apply andb_prop in Hok as [Hok Hbind].
  apply andb_prop in Hok as [Hoff Hon].
  exists dt, off, on. repeat split.
  - apply entries_eqb_eq, Hoff.
  - apply entries_eqb_eq, Hon.
  - intros d n Hin. rewrite forallb_forall in Hbind.
    apply bound_to_eq, (Hbind (d, n) Hin).
  - intros i Hi. apply Z.eqb_eq.
    apply (forallb_range _ _ _ Hord). lia.
Qed.

Lemma tet_window_gated_witness :
  (START_YEAR <= 2023 <= END_YEAR)
  /\ exists dt off on,
      get_solar_date 2023 1 1 = Ok dt
      /\ populated false 2023 = (Ok tt, off)
      /\ populated true 2023 = (Ok tt, on)
      /\ tet_entries (assignments off) = []
      /\ tet_entries (assignments on) = six_days dt
      /\ (forall d n, In (d, n) (six_days dt) -> lookup d (items on) = Some n)
      /\ (forall i, -1 <= i <= 4 ->
          toordinal (plus_days dt i) = toordinal dt + i).
Proof.
  assert (Hy : START_YEAR <= 2023 <= END_YEAR)
    by (vm_compute; split; discriminate).
  split; [exact Hy | exact (tet_window_gated 2023 Hy)].
Defined.

Lemma assignments_checked :
  forallb assignments_ok (range START_YEAR (END_YEAR + 1)) = true.
Proof. vm_compute. reflexivity. Qed.

Lemma entry_eqb_eq (a b : date * string) : entry_eqb a b = true -> a = b.
Proof.
  destruct a as [d1 n1], b as [d2 n2]. unfold entry_eqb. cbn [fst snd].
  rewrite andb_true_iff. intros [Hd Hn].
  apply date_eqb_eq in Hd. apply String.eqb_eq in Hn. now subst.
Qed.

(** C9, as the code has it.  For every supported year the call only adds
    assignments.  With [observed] off no date is assigned twice.  With
    [observed] on the New Year rule assigns (year, Jan, 1) twice in a row
    under the same name, and that is the only repetition: January 1st and
    the dates of all later assignments are pairwise distinct. *)
Theorem assignments_distinct (year : Z) :
  START_YEAR <= year <= END_YEAR ->
  exists off on later,
    populated false year = (Ok tt, off)
    /\ populated true year = (Ok tt, on)
    /\ NoDup (map fst (assignments off))
    /\ assignments on
       = (Date year JAN 1, new_year_name)
         :: (Date year JAN 1, new_year_name) :: later
    /\ NoDup (Date year JAN 1 :: map fst later).
Proof.
  intros Hy.
  assert (Hok : assignments_ok year = true)
    by (apply (forallb_range _ _ _ assignments_checked); lia).
  unfold assignments_ok in Hok.
  destruct (populated false year) as [[[] |] off]; [| discriminate].
  destruct (populated true year) as [[[] |] on]; [| discriminate].
  apply andb_prop in Hok as [Hoff Hon].
  destruct (assignments on) as [| a [| b later]] eqn:Elog; try discriminate.
  apply andb_prop in Hon as [Hab Hnd]. apply andb_prop in Hab as [Ha Hb].
  apply entry_eqb_eq in Ha, Hb. subst a b.
  exists off, on, later.
  split; [reflexivity |]. split; [reflexivity |].
  split; [apply nodupb_NoDup, Hoff |].
  split; [exact Elog | apply nodupb_NoDup, Hnd].
Qed.

Lemma assignments_distinct_witness :
  (START_YEAR <= 2023 <= END_YEAR)
  /\ exists off on later,
      populated false 2023 = (Ok tt, off)
      /\ populated true 2023 = (Ok tt, on)
      /\ NoDup (map fst (assignments off))
      /\ assignments on
         = (Date 2023 JAN 1, new_year_name)
           :: (Date 2023 JAN 1, new_year_name) :: later
      /\ NoDup (Date 2023 JAN 1 :: map fst later).
Proof.
  assert (Hy : START_YEAR <= 2023 <= END_YEAR)
    by (vm_compute; split; discriminate).
  split; [exact Hy | exact (assignments_distinct 2023 Hy)].
Defined.

(** C9 as stated fails: with [observed] on, (year, Jan, 1) is assigned by
    line 38 and again by line 40, so a key is written twice. *)
Lemma key_written_twice :
  populated true 2023 = (Ok tt, snd (populated true 2023))
  /\ ~ NoDup (map fst (assignments (snd (populated true 2023)))).
Proof.
  split; [vm_compute; reflexivity |].
  intros H. apply nodupb_NoDup in H. vm_compute in H. discriminate.
Qed.

(** C3, evaluated at 1900, one year before [START_YEAR].  The subscript is
    -1, which reads the last entry of the table (that of 2099): every
    lookup returns a value, the conversion answers the anchor date, and the
    whole call returns. *)
Theorem year_below_START_YEAR_evaluated :
  1900 < START_YEAR
  /\ get_leap_month 1900 = Ok 2
  /\ lunar_month_days 1900 1 = Ok 30
  /\ lunar_year_days 1900 = Ok 384
  /\ get_solar_date 1900 1 1 = Ok (Date 1901 2 19)
  /\ fst (populated true 1900) = Ok tt
  /\ fst (populated false 1900) = Ok tt
  /\ lookup (Date 1901 2 19) (items (snd (populated true 1900)))
     = Some "Vietnamese New Year".
Proof. repeat split; vm_compute; reflexivity. Qed.


(* ===================================================================== *)
(** ** The New Year rule on every year *)
(* ===================================================================== *)

Lemma new_year_checked :
  forallb (fun y => new_year_ok true y && new_year_ok false y)
          (range (START_YEAR - 199) (END_YEAR + 1)) = true.
Proof. vm_compute. reflexivity. Qed.

Lemma january_shift_checked :
  forallb january_shift_ok (range MINYEAR (MAXYEAR + 1)) = true.
Proof. vm_compute. reflexivity. Qed.

Lemma january_shift (year : Z) :
  MINYEAR <= year <= MAXYEAR ->
  add_rd_days (Date year JAN 1) 2 = Ok (Date year JAN 3)
  /\ add_rd_days (Date year JAN 1) 1 = Ok (Date year JAN 2).
Proof.
  intros H.
  assert (Hok : january_shift_ok year = true)
    by (apply (forallb_range _ _ _ january_shift_checked); lia).
  unfold january_shift_ok in Hok.
  destruct (add_rd_days (Date year JAN 1) 2) as [d3 |]; [| discriminate].
  destruct (add_rd_days (Date year JAN 1) 1) as [d2 |]; [| discriminate].
  apply andb_prop in Hok as [H3 H2]. apply date_eqb_eq in H3, H2.
  now subst.
Qed.

Lemma mk_date_january_1 (year : Z) :
  MINYEAR <= year <= MAXYEAR -> mk_date year JAN 1 = Ok (Date year JAN 1).
Proof.
  intros [Hlo Hhi]. unfold mk_date.
  rewrite (proj2 (Z.leb_le MINYEAR year) Hlo).
  rewrite (proj2 (Z.leb_le year MAXYEAR) Hhi).
  reflexivity.
Qed.

Section MethodSteps.

Context {A B C : Type}.

Lemma mbind_call (r : result A) (k : A -> method B) (self : HolidayBase) :
  mbind (call r) k self
  = match r with Ok a => k a self | Raise e => (Raise e, self) end.
Proof. unfold mbind, call. now destruct r. Qed.

Lemma mbind_setitem (d : date) (n : string) (k : unit -> method B)
      (self : HolidayBase) :
  mbind (setitem d n) k self
  = k tt (Self (observed self) ((d, n) :: items self)).
Proof. reflexivity. Qed.

Lemma mbind_self_observed (k : bool -> method B) (self : HolidayBase) :
  mbind self_observed k self = k (observed self) self.
Proof. reflexivity. Qed.

Lemma mbind_ret (a : A) (k : A -> method B) (self : HolidayBase) :
  mbind (ret a) k self = k a self.
Proof. reflexivity. Qed.

Lemma mbind_mbind (c : method A) (k1 : A -> method B) (k2 : B -> method C)
      (self : HolidayBase) :
  mbind (mbind c k1) k2 self = mbind c (fun a => mbind (k1 a) k2) self.
Proof.
  unfold mbind. destruct (c self) as [[a | e] self']; [| reflexivity].
  reflexivity.
Qed.

End MethodSteps.

Lemma populated_uncovered (obs : bool) (year : Z) :
  MINYEAR <= year <= MAXYEAR ->
  END_YEAR < year \/ year < START_YEAR - 199 ->
  populated obs year = (Raise IndexError, Self obs (new_year_block obs year)).
Proof.
  intros Hy Hout.
  destruct (january_shift year Hy) as [H3 H2].
  pose proof (get_solar_date_raises year 1 1 Hout) as Hgsd.
  unfold populated, _populate. cbv zeta.
  rewrite mbind_call, (mk_date_january_1 year Hy).
  rewrite mbind_setitem, mbind_self_observed.
  unfold new_year_block, shifted. cbv zeta.
  destruct obs; cbn [fresh observed items andb].
  - rewrite !mbind_mbind, mbind_setitem. cbn [observed items].
    destruct (weekday (Date year JAN 1) =? SAT).
    + rewrite mbind_mbind, mbind_call, H3, mbind_setitem, mbind_call, Hgsd.
      reflexivity.
    + destruct (weekday (Date year JAN 1) =? SUN).
      * rewrite mbind_mbind, mbind_call, H2, mbind_setitem, mbind_call, Hgsd.
        reflexivity.
      * rewrite mbind_ret, mbind_call, Hgsd. reflexivity.
  - rewrite mbind_ret, mbind_call, Hgsd. reflexivity.
Qed.

Lemma new_year_ok_all (obs : bool) (year : Z) :
  MINYEAR <= year <= MAXYEAR -> new_year_ok obs year = true.
Proof.
  intros Hy.
  destruct (Z_le_gt_dec (START_YEAR - 199) year) as [Hlo | Hlo];
    [destruct (Z_le_gt_dec year END_YEAR) as [Hhi | Hhi] |].
  - (* years the subscripts accept: checked one by one *)
    assert (Hok : new_year_ok true year && new_year_ok false year = true)
      by (apply (forallb_range _ _ _ new_year_checked); lia).
    apply andb_prop in Hok as [Ht Hf]. now destruct obs.
  - unfold new_year_ok.
    rewrite (populated_uncovered obs year Hy) by lia.
    unfold new_year_block, shifted, assignments. cbv zeta.
    destruct obs, (weekday (Date year JAN 1) =? SAT),
      (weekday (Date year JAN 1) =? SUN);
      cbv -[Z.eqb]; rewrite ?Z.eqb_refl; reflexivity.
  - unfold new_year_ok.
    rewrite (populated_uncovered obs year Hy) by lia.
    unfold new_year_block, shifted, assignments. cbv zeta.
    destruct obs, (weekday (Date year JAN 1) =? SAT),
      (weekday (Date year JAN 1) =? SUN);
      cbv -[Z.eqb]; rewrite ?Z.eqb_refl; reflexivity.
Qed.

(** C8. For every year a date can carry, the call binds (year, Jan, 1) to
    the New Year name, whatever [observed] is and whether or not the call
    later raises.  With [observed] on and January 1st a Saturday it also
    binds January 3rd to the name with the suffix [" observed"]; on a Sunday,
    January 2nd; on any other weekday, or with [observed] off, nothing is
    assigned under the suffixed name. *)
Theorem new_year_rule (obs : bool) (year : Z) :
  MINYEAR <= year <= MAXYEAR ->
  let first_date := Date year JAN 1 in
  let self := snd (populated obs year) in
  lookup first_date (items self) = Some new_year_name
  /\ (obs = true -> weekday first_date = SAT ->
      entries_named observed_name (assignments self)
      = [(Date year JAN 3, observed_name)]
      /\ lookup (Date year JAN 3) (items self) = Some observed_name)
  /\ (obs = true -> weekday first_date = SUN ->
      entries_named observed_name (assignments self)
      = [(Date year JAN 2, observed_name)]
      /\ lookup (Date year JAN 2) (items self) = Some observed_name)
  /\ (obs = false \/ (weekday first_date <> SAT /\ weekday first_date <> SUN) ->
      entries_named observed_name (assignments self) = []).
Proof.
  intros Hy first_date self.
  pose proof (new_year_ok_all obs year Hy) as Hok.
  unfold new_year_ok in Hok. cbv zeta in Hok. fold self in Hok.
  apply andb_prop in Hok as [Hok Hbound]. apply andb_prop in Hok as [Hjan Hsh].
  apply bound_to_eq in Hjan. apply entries_eqb_eq in Hsh.
  rewrite Hsh. unfold shifted in *. cbv zeta in *. fold first_date in Hbound |- *.
  split; [exact Hjan |]. split; [| split].
  - intros -> Hsat. apply Z.eqb_eq in Hsat. rewrite Hsat in *.
    cbn [andb] in *. split; [reflexivity |].
    cbn [forallb fst snd] in Hbound. apply andb_prop in Hbound as [Hb _].
    apply bound_to_eq, Hb.
  - intros -> Hsun.
    assert (Hsat : (weekday first_date =? SAT) = false)
      by (rewrite Hsun; reflexivity).
    apply Z.eqb_eq in Hsun. rewrite Hsat, Hsun in *.
    cbn [andb] in *. split; [reflexivity |].
    cbn [forallb fst snd] in Hbound. apply andb_prop in Hbound as [Hb _].
    apply bound_to_eq, Hb.
  - intros [-> | [Hsat Hsun]]; [reflexivity |].
    apply Z.eqb_neq in Hsat, Hsun. rewrite Hsat, Hsun.
    now rewrite !andb_false_r.
Qed.

Lemma new_year_rule_witness :
  (MINYEAR <= 2022 <= MAXYEAR)
  /\ weekday (Date 2022 JAN 1) = SAT
  /\ lookup (Date 2022 JAN 1) (items (snd (populated true 2022)))
     = Some new_year_name
  /\ lookup (Date 2022 JAN 3) (items (snd (populated true 2022)))
     = Some observed_name.
Proof.
  assert (Hy : MINYEAR <= 2022 <= MAXYEAR)
    by (vm_compute; split; discriminate).
  assert (Hsat : weekday (Date 2022 JAN 1) = SAT) by reflexivity.
  split; [exact Hy |]. split; [exact Hsat |].
  pose proof (new_year_rule true 2022 Hy) as H. cbv zeta in H.
  split; [exact (proj1 H) |].
  exact (proj2 (proj1 (proj2 H) eq_refl Hsat)).
Defined.

(* ===================================================================== *)
(** ** Ordinals of converted dates *)
(* ===================================================================== *)

Lemma date_ok_spec (n : Z) (d : date) :
  date_ok n d = true ->
  toordinal d = n /\ mk_date (year_of d) (month_of d) (day_of d) = Ok d.
Proof.
  intros Hok. unfold date_ok in Hok.
  apply andb_prop in Hok as [Hord Hmk].
  split; [now apply Z.eqb_eq in Hord |].
  destruct (mk_date _ _ _) as [d' |]; [| discriminate].
  apply date_eqb_eq in Hmk. now subst.
Qed.

Lemma month_starts_checked :
  forallb month_starts_ok (range START_YEAR (END_YEAR + 1)) = true.
Proof. vm_cast_no_check (eq_refl true). Qed.

(** The first day of a month of a supported year: the ordinal the
    conversion reaches is the ordinal of the date it answers. *)
Lemma month_start_ordinal (year stop : Z) (yds mds : list Z) :
  START_YEAR <= year <= END_YEAR ->
  1 <= stop <= 14 ->
  collect lunar_year_days (range START_YEAR year) = Ok yds ->
  collect (lunar_month_days year) (range 1 stop) = Ok mds ->
  toordinal (_ord2ymd (toordinal SOLAR_START_DATE + (zsum yds + zsum mds)))
  = toordinal SOLAR_START_DATE + (zsum yds + zsum mds).
Proof.
  intros Hy Hstop Hyds Hmds.
  assert (Hok : month_starts_ok year = true)
    by (apply (forallb_range _ _ _ month_starts_checked); lia).
  unfold month_starts_ok in Hok. rewrite Hyds in Hok.
  assert (Hs := forallb_range _ _ _ Hok stop ltac:(lia)).
  cbv beta in Hs. rewrite Hmds in Hs.
  apply date_ok_spec in Hs. exact (proj1 Hs).
Qed.

Lemma collect_app (f : Z -> result Z) (l1 l2 : list Z) :
  collect f (l1 ++ l2)%list
  = (ds1 <- collect f l1 ;; ds2 <- collect f l2 ;; Ok (ds1 ++ ds2)%list).
Proof.
  induction l1 as [| i l1 IH]; cbn [app collect].
  - cbn [Py.bind]. now destruct (collect f l2).
  - destruct (f i) as [d | e]; cbn [Py.bind]; [| reflexivity].
    rewrite IH. destruct (collect f l1) as [ds1 | e]; cbn [Py.bind];
      [| reflexivity].
    now destruct (collect f l2).
Qed.

Lemma zsum_app (l1 l2 : list Z) : zsum (l1 ++ l2)%list = zsum l1 + zsum l2.
Proof.
  unfold zsum. induction l1 as [| d l1 IH]; cbn [app fold_right]; lia.
Qed.

Lemma for_ext {S} (l : list Z) (b1 b2 : Z -> S -> result S) (s : S) :
  (forall i s', In i l -> b1 i s' = b2 i s') ->
  for_ l b1 s = for_ l b2 s.
Proof.
  revert s. induction l as [| i l IH]; intros s H; cbn [for_]; [reflexivity |].
  rewrite (H i s (or_introl eq_refl)).
  destruct (b2 i s) as [s' | e]; cbn [Py.bind]; [| reflexivity].
  apply IH. intros j s'' Hj. apply H. now right.
Qed.

(** The conversion of a lunar date of a supported year, through the first
    day of its month: the leap-month field, the year and month lengths
    summed, the date answered and the date of the first of the month with
    its ordinal. *)
Lemma get_solar_date_parts (year month day : Z) :
  START_YEAR <= year <= END_YEAR ->
  1 <= month <= 13 ->
  1 <= day <= 30 ->
  exists first lm yds mds,
    get_solar_date year month 1 = Ok first
    /\ get_leap_month year = Ok lm
    /\ (1 <= lm <= 13 \/ lm = 0x0F)
    /\ collect lunar_year_days (range START_YEAR year) = Ok yds
    /\ collect (lunar_month_days year)
               (range 1 (if month <=? lm then month else month + 1)) = Ok mds
    /\ 0 <= zsum yds + zsum mds <= 385 * 199 + 30 * 13 + 29
    /\ first = _ord2ymd (toordinal SOLAR_START_DATE + (zsum yds + zsum mds))
    /\ toordinal first = toordinal SOLAR_START_DATE + (zsum yds + zsum mds)
    /\ get_solar_date year month day
       = Ok (_ord2ymd (toordinal first + (day - 1))).
Proof.
  intros Hy Hm Hd.
  destruct (get_solar_date_span year month 1 Hy Hm) as (s1 & Hs1 & Hb1 & Hg1);
    [lia |].
  destruct (get_solar_date_span year month day Hy Hm Hd)
    as (span & Hs & Hb & Hg).
  pose proof (entry_ok_supported year Hy) as Hok. unfold entry_ok in Hok.
  unfold spec_span_days in Hs, Hs1.
  destruct (collect lunar_year_days (range START_YEAR year)) as [yds |]
    eqn:Hyds; [| discriminate].
  cbn [Py.bind] in Hs, Hs1.
  destruct (get_leap_month year) as [lm |] eqn:Hleap; [| discriminate].
  cbn [Py.bind] in Hs, Hs1.
  destruct (collect (lunar_month_days year) _) as [mds |] eqn:Hmds;
    [| discriminate].
  cbn [Py.bind] in Hs, Hs1. injection Hs as <-. injection Hs1 as <-.
  destruct (lunar_year_days year) as [n |]; [| discriminate].
  apply andb_prop in Hok as [Hok _]. apply andb_prop in Hok as [Hlm _].
  assert (Hlm' : 1 <= lm <= 13 \/ lm = 15).
  { apply orb_prop in Hlm as [Hlm | Hlm]; [left | right].
    - apply andb_prop in Hlm as [H1 H2]. lia.
    - now apply Z.eqb_eq in Hlm. }
  change (1 - 1) with 0 in *. rewrite Z.add_0_r in Hg1, Hb1.
  assert (Hrt := month_start_ordinal year
                   (if month <=? lm then month else month + 1) yds mds Hy
                   ltac:(destruct (month <=? lm); lia) Hyds Hmds).
  exists (_ord2ymd (toordinal SOLAR_START_DATE + (zsum yds + zsum mds))),
    lm, yds, mds.
  split; [exact Hg1 |]. split; [reflexivity |]. split; [exact Hlm' |].
  split; [reflexivity |]. split; [exact Hmds |]. split; [lia |].
  split; [reflexivity |]. split; [exact Hrt |].
  rewrite Hg, Hrt. do 2 f_equal. lia.
Qed.

(** Adding days to a date: inside the supported ordinals it is the date of
    the ordinal that many days later. *)
Lemma add_in_range (d : date) (k : Z) :
  0 < toordinal d + k <= _MAXORDINAL ->
  add d k = Ok (_ord2ymd (toordinal d + k)).
Proof.
  intros H. unfold add.
  rewrite (proj2 (Z.ltb_lt 0 _)) by lia.
  rewrite (proj2 (Z.leb_le _ _MAXORDINAL)) by lia.
  reflexivity.
Qed.

(* ===================================================================== *)
(** ** More on the converter *)
(* ===================================================================== *)

(** X1. For every supported year, [lunar_year_days] is the sum of
    [lunar_month_days] over months 1 to 12, and over months 1 to 13 when
    the leap-month field is not the no-leap value 15: the two functions
    read the same bits. *)
Theorem lunar_year_days_month_sum (year : Z) :
  START_YEAR <= year <= END_YEAR ->
  exists lm ds,
    get_leap_month year = Ok lm
    /\ collect (lunar_month_days year)
               (range 1 (if lm =? 0x0F then 13 else 14)) = Ok ds
    /\ lunar_year_days year = Ok (zsum ds).
Proof.
  intros Hy.
  set (lm := Z.land (Z.shiftr (entry_of year) 16) 15).
  set (stop := if lm =? 15 then 13 else 14).
  destruct (collect_total (lunar_month_days year) (fun _ => True)
              (range 1 stop)) as (ds & Hds & _ & _).
  { intros m Hin. apply range_In in Hin.
    destruct (lunar_month_days_cases year m Hy) as [H | H]; [lia | |];
      eauto. }
  exists lm, ds. split; [apply get_leap_month_entry, Hy |].
  split; [exact Hds |].
  unfold lunar_year_days. rewrite (getitem_entry year Hy). cbn [Py.bind].
  rewrite (get_leap_month_entry year Hy). cbn [Py.bind]. fold lm. fold stop.
  rewrite (for_ext _ _
             (fun m days => d <- lunar_month_days year m ;; Ok (days + d))).
  - rewrite for_accumulate, Hds. reflexivity.
  - intros m days Hin. apply range_In in Hin.
    rewrite (lunar_month_days_entry year Hy m) by lia.
    unfold rshift. rewrite (proj2 (Z.ltb_ge m 0)) by lia. reflexivity.
Qed.

Lemma lunar_year_days_month_sum_witness :
  (START_YEAR <= 2023 <= END_YEAR)
  /\ exists lm ds,
      get_leap_month 2023 = Ok lm
      /\ collect (lunar_month_days 2023)
                 (range 1 (if lm =? 0x0F then 13 else 14)) = Ok ds
      /\ lunar_year_days 2023 = Ok (zsum ds).
Proof.
  assert (Hy : START_YEAR <= 2023 <= END_YEAR)
    by (vm_compute; split; discriminate).
  split; [exact Hy | exact (lunar_year_days_month_sum 2023 Hy)].
Defined.

(** X2. For every supported year but the last, the lunar New Year of the
    next year is the lunar New Year of the year plus
    [timedelta(lunar_year_days(year))]. *)
Theorem new_year_step (year : Z) :
  START_YEAR <= year < END_YEAR ->
  exists d1 d2 n,
    get_solar_date year 1 1 = Ok d1
    /\ lunar_year_days year = Ok n
    /\ add d1 n = Ok d2
    /\ get_solar_date (year + 1) 1 1 = Ok d2.
Proof.
  intros Hy.
  destruct (get_solar_date_parts year 1 1) as
    (d1 & lm1 & yds1 & mds1 & Hg1 & _ & Hlm1 & Hy1 & Hm1 & Hb1 & _ & Ho1 & _);
    [lia.. |].
  destruct (get_solar_date_parts (year + 1) 1 1) as
    (d2 & lm2 & yds2 & mds2 & Hg2 & _ & Hlm2 & Hy2 & Hm2 & Hb2 & Hd2 & _);
    [lia.. |].
  destruct (lunar_year_days_supported year) as (n & Hn & Hnb); [lia |].
  rewrite (proj2 (Z.leb_le 1 lm1)) in Hm1 by lia.
  rewrite (proj2 (Z.leb_le 1 lm2)) in Hm2 by lia.
  rewrite range_empty in Hm1, Hm2 by lia.
  cbn [collect] in Hm1, Hm2. injection Hm1 as <-. injection Hm2 as <-.
  rewrite (range_app START_YEAR year (year + 1)) in Hy2
    by (unfold START_YEAR in *; lia).
  rewrite collect_app, Hy1 in Hy2. cbn [Py.bind] in Hy2.
  rewrite (range_cons year), range_empty in Hy2 by lia.
  cbn [collect] in Hy2. rewrite Hn in Hy2. cbn [Py.bind] in Hy2.
  injection Hy2 as <-. rewrite zsum_app in Hd2.
  cbn [zsum fold_right] in *.
  rewrite SOLAR_START_DATE_ordinal in *.
  exists d1, d2, n. split; [exact Hg1 |]. split; [exact Hn |].
  split; [| exact Hg2].
  rewrite add_in_range by (unfold _MAXORDINAL; lia).
  rewrite Hd2, Ho1. do 2 f_equal. lia.
Qed.

Lemma new_year_step_witness :
  (START_YEAR <= 2023 < END_YEAR)
  /\ exists d1 d2 n,
      get_solar_date 2023 1 1 = Ok d1
      /\ lunar_year_days 2023 = Ok n
      /\ add d1 n = Ok d2
      /\ get_solar_date (2023 + 1) 1 1 = Ok d2.
Proof.
  assert (Hy : START_YEAR <= 2023 < END_YEAR)
    by (vm_compute; split; [discriminate | reflexivity]).
  split; [exact Hy | exact (new_year_step 2023 Hy)].
Defined.

(** X3. For every supported year and month 1 to 11, the first day of
    month [month + 1] is the first day of [month] plus the length of table
    slot [month] when [month] is below the leap-month index, plus the
    length of slot [month + 1] when it is above, and plus both (the month
    and the leap month that follows it) when [month] is the leap-month
    index. *)
Theorem get_solar_date_month_step (year month : Z) :
  START_YEAR <= year <= END_YEAR ->
  1 <= month <= 11 ->
  exists d1 d2 lm a b,
    get_solar_date year month 1 = Ok d1
    /\ get_leap_month year = Ok lm
    /\ lunar_month_days year month = Ok a
    /\ lunar_month_days year (month + 1) = Ok b
    /\ add d1 (if month <? lm then a else if month =? lm then a + b else b)
       = Ok d2
    /\ get_solar_date year (month + 1) 1 = Ok d2.
Proof.
  intros Hy Hm.
  destruct (get_solar_date_parts year month 1 Hy) as
    (d1 & lm & yds & mds1 & Hg1 & Hl1 & _ & Hy1 & Hm1 & Hb1 & _ & Ho1 & _);
    [lia.. |].
  destruct (get_solar_date_parts year (month + 1) 1 Hy) as
    (d2 & lm' & yds' & mds2 & Hg2 & Hl2 & _ & Hy2 & Hm2 & Hb2 & Hd2 & _);
    [lia.. |].
  rewrite Hl1 in Hl2. injection Hl2 as <-.
  rewrite Hy1 in Hy2. injection Hy2 as <-.
  assert (Hlen : forall k, 1 <= k -> exists d,
             lunar_month_days year k = Ok d /\ 29 <= d <= 30
             /\ collect (lunar_month_days year) (range k (k + 1)) = Ok [d]).
  { intros k Hk.
    destruct (lunar_month_days_cases year k Hy) as [H | H]; [lia | |];
      eexists; (split; [exact H |]); (split; [lia |]);
      rewrite range_cons, range_empty by lia; cbn [collect];
      rewrite H; reflexivity. }
  destruct (Hlen month) as (a & Ha & Hab & Hca); [lia |].
  destruct (Hlen (month + 1)) as (b & Hb & Hbb & Hcb); [lia |].
  exists d1, d2, lm, a, b.
  split; [exact Hg1 |]. split; [exact Hl1 |].
  split; [exact Ha |]. split; [exact Hb |]. split; [| exact Hg2].
  rewrite SOLAR_START_DATE_ordinal in *.
  rewrite add_in_range
    by (unfold _MAXORDINAL;
        destruct (month <? lm); [| destruct (month =? lm)]; lia).
  rewrite Hd2, Ho1. do 2 f_equal.
  destruct (Z.ltb_spec month lm) as [Hlt | Hge].
  - (* both months come before the leap month *)
    rewrite (proj2 (Z.leb_le month lm)) in Hm1 by lia.
    rewrite (proj2 (Z.leb_le (month + 1) lm)) in Hm2 by lia.
    rewrite (range_app 1 month (month + 1)) in Hm2 by lia.
    rewrite collect_app, Hm1, Hca in Hm2. cbn [Py.bind] in Hm2.
    injection Hm2 as <-. rewrite zsum_app.
    cbn [zsum fold_right]. lia.
  - destruct (Z.eqb_spec month lm) as [Heq | Hne].
    + (* the month that carries the leap month: two table slots *)
      rewrite (proj2 (Z.leb_le month lm)) in Hm1 by lia.
      rewrite (proj2 (Z.leb_gt (month + 1) lm)) in Hm2 by lia.
      rewrite (range_app 1 month (month + 1 + 1)) in Hm2 by lia.
      rewrite (range_app month (month + 1) (month + 1 + 1)) in Hm2 by lia.
      rewrite !collect_app, Hm1, Hca, Hcb in Hm2. cbn [Py.bind] in Hm2.
      injection Hm2 as <-. rewrite !zsum_app.
      cbn [zsum fold_right]. lia.
    + (* both months come after the leap month: one slot later *)
      rewrite (proj2 (Z.leb_gt month lm)) in Hm1 by lia.
      rewrite (proj2 (Z.leb_gt (month + 1) lm)) in Hm2 by lia.
      rewrite (range_app 1 (month + 1) (month + 1 + 1)) in Hm2 by lia.
      rewrite collect_app, Hm1, Hcb in Hm2. cbn [Py.bind] in Hm2.
      injection Hm2 as <-. rewrite zsum_app.
      cbn [zsum fold_right]. lia.
Qed.

Lemma get_solar_date_month_step_witness :
  (START_YEAR <= 2023 <= END_YEAR) /\ (1 <= 2 <= 11)
  /\ exists d1 d2 lm a b,
      get_solar_date 2023 2 1 = Ok d1
      /\ get_leap_month 2023 = Ok lm
      /\ lunar_month_days 2023 2 = Ok a
      /\ lunar_month_days 2023 (2 + 1) = Ok b
      /\ add d1 (if 2 <? lm then a else if 2 =? lm then a + b else b)
         = Ok d2
      /\ get_solar_date 2023 (2 + 1) 1 = Ok d2.
Proof.
  assert (Hy : START_YEAR <= 2023 <= END_YEAR)
    by (vm_compute; split; discriminate).
  assert (Hm : 1 <= 2 <= 11) by lia.
  split; [exact Hy |]. split; [exact Hm |].
  exact (get_solar_date_month_step 2023 2 Hy Hm).
Defined.

(** X4. For every supported year and month 1 to 12, the day enters the
    conversion linearly: lunar day [day] converts to the conversion of day 1
    plus [timedelta(day - 1)], for every day from 1 to 30, whether or not
    the month has 30 days. *)
Theorem get_solar_date_day_linear (year month day : Z) :
  START_YEAR <= year <= END_YEAR ->
  1 <= month <= 12 ->
  1 <= day <= 30 ->
  exists first dt,
    get_solar_date year month 1 = Ok first
    /\ add first (day - 1) = Ok dt
    /\ get_solar_date year month day = Ok dt.
Proof.
  intros Hy Hm Hd.
  destruct (get_solar_date_parts year month day Hy) as
    (first & lm & yds & mds & Hg1 & _ & _ & _ & _ & Hb & _ & Ho & Hg);
    [lia | exact Hd |].
  exists first, (_ord2ymd (toordinal first + (day - 1))).
  split; [exact Hg1 |]. split; [| exact Hg].
  apply add_in_range. rewrite Ho, SOLAR_START_DATE_ordinal.
  unfold _MAXORDINAL. lia.
Qed.

Lemma get_solar_date_day_linear_witness :
  (START_YEAR <= 2023 <= END_YEAR) /\ (1 <= 3 <= 12) /\ (1 <= 30 <= 30)
  /\ exists first dt,
      get_solar_date 2023 3 1 = Ok first
      /\ add first (30 - 1) = Ok dt
      /\ get_solar_date 2023 3 30 = Ok dt.
Proof.
  assert (Hy : START_YEAR <= 2023 <= END_YEAR)
    by (vm_compute; split; discriminate).
  assert (Hm : 1 <= 3 <= 12) by lia.
  assert (Hd : 1 <= 30 <= 30) by lia.
  split; [exact Hy |]. split; [exact Hm |]. split; [exact Hd |].
  exact (get_solar_date_day_linear 2023 3 30 Hy Hm Hd).
Defined.

(** X5. [get_solar_date] does not check the month: on a supported year any
    month below 1 converts like month 1. *)
Theorem get_solar_date_month_below_1 (year month day : Z) :
  START_YEAR <= year <= END_YEAR ->
  month <= 1 ->
  get_solar_date year month day = get_solar_date year 1 day.
Proof.
  intros Hy Hm.
  pose proof (entry_ok_supported year Hy) as Hok. unfold entry_ok in Hok.
  unfold get_solar_date.
  destruct (for_ (range START_YEAR year) _ 0) as [span |]; [| reflexivity].
  cbn [Py.bind].
  destruct (get_leap_month year) as [lm |]; [| reflexivity].
  destruct (lunar_year_days year); [| discriminate].
  apply andb_prop in Hok as [Hok _]. apply andb_prop in Hok as [Hlm _].
  assert (H1 : 1 <= lm).
  { apply orb_prop in Hlm as [Hlm | Hlm].
    - apply andb_prop in Hlm as [H1 _]. lia.
    - apply Z.eqb_eq in Hlm. lia. }
  cbn [Py.bind]. rewrite !Z.gtb_ltb.
  rewrite (proj2 (Z.ltb_ge lm month)) by lia.
  rewrite (proj2 (Z.ltb_ge lm 1)) by lia.
  cbn [of_bool]. rewrite !range_empty by lia. reflexivity.
Qed.

Lemma get_solar_date_month_below_1_witness :
  (START_YEAR <= 2023 <= END_YEAR) /\ (0 <= 1)
  /\ get_solar_date 2023 0 1 = get_solar_date 2023 1 1.
Proof.
  assert (Hy : START_YEAR <= 2023 <= END_YEAR)
    by (vm_compute; split; discriminate).
  assert (Hm : 0 <= 1) by discriminate.
  split; [exact Hy |]. split; [exact Hm |].
  exact (get_solar_date_month_below_1 2023 0 1 Hy Hm).
Defined.

(** X6. For every supported year, [lunar_month_days] with a negative month
    raises [ValueError], the shift count being negative. *)
Theorem lunar_month_days_negative_month (year m : Z) :
  START_YEAR <= year <= END_YEAR ->
  m < 0 ->
  lunar_month_days year m = Raise ValueError.
Proof.
  intros Hy Hm. unfold lunar_month_days.
  rewrite (getitem_entry year Hy). cbn [Py.bind]. unfold rshift.
  now rewrite (proj2 (Z.ltb_lt m 0) Hm).
Qed.

Lemma lunar_month_days_negative_month_witness :
  (START_YEAR <= 2023 <= END_YEAR) /\ (-1 < 0)
  /\ lunar_month_days 2023 (-1) = Raise ValueError.
Proof.
  assert (Hy : START_YEAR <= 2023 <= END_YEAR)
    by (vm_compute; split; discriminate).
  assert (Hm : -1 < 0) by reflexivity.
  split; [exact Hy |]. split; [exact Hm |].
  exact (lunar_month_days_negative_month 2023 (-1) Hy Hm).
Defined.

(** X7. For every year above [END_YEAR] or more than 199 below
    [START_YEAR], the three lookups raise [IndexError], whatever the month,
    and so does [get_solar_date], whatever the month and day. *)
Theorem converter_out_of_range (year : Z) :
  END_YEAR < year \/ year < START_YEAR - 199 ->
  get_leap_month year = Raise IndexError
  /\ lunar_year_days year = Raise IndexError
  /\ (forall m, lunar_month_days year m = Raise IndexError)
  /\ (forall m d, get_solar_date year m d = Raise IndexError).
Proof.
  intros Hout.
  assert (Hg : getitem g_lunar_month_days (year - START_YEAR)
               = Raise IndexError).
  { destruct Hout; [apply getitem_table_above | apply getitem_table_far_below];
      assumption. }
  destruct (lookups_raise year Hg) as (Hl & Hm & Hyd).
  repeat split; try assumption.
  intros m d. apply get_solar_date_raises, Hout.
Qed.

Lemma converter_out_of_range_witness :
  (END_YEAR < 2100 \/ 2100 < START_YEAR - 199)
  /\ get_leap_month 2100 = Raise IndexError
  /\ lunar_year_days 2100 = Raise IndexError
  /\ (forall m, lunar_month_days 2100 m = Raise IndexError)
  /\ (forall m d, get_solar_date 2100 m d = Raise IndexError).
Proof.
  assert (Hout : END_YEAR < 2100 \/ 2100 < START_YEAR - 199)
    by (left; reflexivity).
  split; [exact Hout | exact (converter_out_of_range 2100 Hout)].
Defined.

(** X8. For every year below [START_YEAR] by at most 199, no lookup raises
    what it would not raise 199 years later: each returns exactly what it
    returns for [year + 199], and a date of lunar month 1 converts to what
    the same date of [START_YEAR] converts to. *)
Theorem converter_wraps_below_START_YEAR (year : Z) :
  START_YEAR - 199 <= year < START_YEAR ->
  get_leap_month year = get_leap_month (year + 199)
  /\ lunar_year_days year = lunar_year_days (year + 199)
  /\ (forall m, lunar_month_days year m = lunar_month_days (year + 199) m)
  /\ (forall d, 1 <= d <= 30 ->
        get_solar_date year 1 d = get_solar_date START_YEAR 1 d).
Proof.
  intros Hy. destruct (lookups_wrap year Hy) as (Hl & Hm & Hyd).
  repeat split; try assumption.
  intros d Hd. unfold get_solar_date.
  rewrite !range_empty by lia. cbn [for_ Py.bind].
  assert (Hone : forall y, START_YEAR <= y <= END_YEAR ->
            exists lm, get_leap_month y = Ok lm /\ (lm <? 1) = false).
  { intros y Hsup. pose proof (entry_ok_supported y Hsup) as Hok.
    unfold entry_ok in Hok.
    destruct (get_leap_month y) as [lm |]; [| discriminate].
    destruct (lunar_year_days y); [| discriminate].
    apply andb_prop in Hok as [Hok _]. apply andb_prop in Hok as [Hlm _].
    exists lm. split; [reflexivity |]. apply Z.ltb_ge.
    apply orb_prop in Hlm as [Hlm | Hlm].
    - apply andb_prop in Hlm as [H1 _]. lia.
    - apply Z.eqb_eq in Hlm. lia. }
  pose proof END_YEAR_value as HE.
  destruct (Hone (year + 199)) as (lm & Hlm & Hlt);
    [unfold START_YEAR in *; lia |].
  destruct (Hone START_YEAR) as (lm0 & Hlm0 & Hlt0);
    [unfold START_YEAR in *; lia |].
  rewrite Hl, Hlm, Hlm0. cbn [Py.bind].
  rewrite !Z.gtb_ltb, Hlt, Hlt0. cbn [of_bool].
  rewrite !range_empty by lia. reflexivity.
Qed.

Lemma converter_wraps_below_START_YEAR_witness :
  (START_YEAR - 199 <= 1702 < START_YEAR)
  /\ get_leap_month 1702 = get_leap_month (1702 + 199)
  /\ lunar_year_days 1702 = lunar_year_days (1702 + 199)
  /\ (forall m, lunar_month_days 1702 m = lunar_month_days (1702 + 199) m)
  /\ (forall d, 1 <= d <= 30 ->
        get_solar_date 1702 1 d = get_solar_date START_YEAR 1 d).
Proof.
  assert (Hy : START_YEAR - 199 <= 1702 < START_YEAR)
    by (vm_compute; split; [discriminate | reflexivity]).
  split; [exact Hy | exact (converter_wraps_below_START_YEAR 1702 Hy)].
Defined.

(* ===================================================================== *)
(** ** More on the rule engine *)
(* ===================================================================== *)

Lemma rules_checked :
  forallb rules_ok (range START_YEAR (END_YEAR + 1)) = true.
Proof. vm_cast_no_check (eq_refl true). Qed.

Lemma rules_hold_spec (year : Z) (hk : list (date * string))
      (self : HolidayBase) :
  rules_hold year hk self = true ->
  entries_named hung_kings_name (assignments self) = hk
  /\ all_bound hk (items self) = true
  /\ filter (fun e => is_fixed_name (snd e)) (assignments self)
     = fixed_entries year
  /\ all_bound (fixed_entries year) (items self) = true
  /\ forallb (fun e => year_of (fst e) =? year) (items self) = true.
Proof.
  intros Hok. unfold rules_hold in Hok.
  apply andb_prop in Hok as [Hok Hyear]. apply andb_prop in Hok as [Hok Hfb].
  apply andb_prop in Hok as [Hok Hfx]. apply andb_prop in Hok as [Hhk Hhb].
  apply entries_eqb_eq in Hhk, Hfx. auto.
Qed.

Lemma rules_supported (year : Z) :
  START_YEAR <= year <= END_YEAR ->
  exists off on,
    populated false year = (Ok tt, off)
    /\ populated true year = (Ok tt, on)
    /\ rules_hold year (hung_kings_entries year) off = true
    /\ rules_hold year (hung_kings_entries year) on = true
    /\ all_bound (items off) (items on) = true.
Proof.
  intros Hy.
  assert (Hok : rules_ok year = true)
    by (apply (forallb_range _ _ _ rules_checked); lia).
  unfold rules_ok in Hok.
  destruct (populated false year) as [[[] |] off]; [| discriminate].
  destruct (populated true year) as [[[] |] on]; [| discriminate].
  cbv beta in Hok.
  apply andb_prop in Hok as [Hok Hadd]. apply andb_prop in Hok as [Hoff Hon].
  exists off, on. auto.
Qed.

Lemma rules_supported_either (obs : bool) (year : Z) :
  START_YEAR <= year <= END_YEAR ->
  exists self,
    populated obs year = (Ok tt, self)
    /\ rules_hold year (hung_kings_entries year) self = true.
Proof.
  intros Hy.
  destruct (rules_supported year Hy) as (off & on & Hf & Ht & Hoff & Hon & _).
  destruct obs; eauto.
Qed.

Lemma all_bound_In (l m : list (date * string)) (d : date) (n : string) :
  all_bound l m = true -> In (d, n) l -> lookup d m = Some n.
Proof.
  intros H Hin. unfold all_bound in H. rewrite forallb_forall in H.
  apply bound_to_eq, (H (d, n) Hin).
Qed.

Lemma lookup_In (d : date) (n : string) (m : list (date * string)) :
  lookup d m = Some n -> In (d, n) m.
Proof.
  induction m as [| [k v] m IH]; cbn [lookup]; [discriminate |].
  destruct (date_eqb k d) eqn:E.
  - intros [= ->]. apply date_eqb_eq in E. subst. now left.
  - intros H. right. apply IH, H.
Qed.

Section Framed.

Context {A B : Type}.






End Framed.




(** X9. For every supported year and either value of [observed], nothing is
    written under the commemoration-day name when [year < 2007]; when
    [year >= 2007] exactly one entry is, on the solar date of lunar
    (year, 3, 10), and it is the binding of that date when the call
    returns. *)
Theorem commemoration_day_gated (obs : bool) (year : Z) :
  START_YEAR <= year <= END_YEAR ->
  exists self,
    populated obs year = (Ok tt, self)
    /\ (year < 2007 ->
        entries_named hung_kings_name (assignments self) = [])
    /\ (2007 <= year ->
        exists dt,
          get_solar_date year 3 10 = Ok dt
          /\ entries_named hung_kings_name (assignments self)
             = [(dt, hung_kings_name)]
          /\ lookup dt (items self) = Some hung_kings_name).
Proof.
  intros Hy.
  destruct (rules_supported_either obs year Hy) as (self & Hp & Hok).
  destruct (rules_hold_spec _ _ _ Hok) as (Hhk & Hhb & _).
  exists self. split; [exact Hp |]. rewrite Hhk.
  unfold hung_kings_entries in *.
  destruct (Z.geb_spec year 2007) as [Hge | Hlt].
  - split; [lia |]. intros _.
    destruct (get_solar_date_span year 3 10 Hy) as (span & _ & _ & Hg);
      [lia.. |].
    rewrite Hg in *. eexists. split; [reflexivity |]. split; [reflexivity |].
    apply (all_bound_In _ _ _ _ Hhb). now left.
  - split; [reflexivity | lia].
Qed.

Lemma commemoration_day_gated_witness :
  (START_YEAR <= 2007 <= END_YEAR)
  /\ exists self,
      populated true 2007 = (Ok tt, self)
      /\ (2007 < 2007 ->
          entries_named hung_kings_name (assignments self) = [])
      /\ (2007 <= 2007 ->
          exists dt,
            get_solar_date 2007 3 10 = Ok dt
            /\ entries_named hung_kings_name (assignments self)
               = [(dt, hung_kings_name)]
            /\ lookup dt (items self) = Some hung_kings_name).
Proof.
  assert (Hy : START_YEAR <= 2007 <= END_YEAR)
    by (vm_compute; split; discriminate).
  split; [exact Hy | exact (commemoration_day_gated true 2007 Hy)].
Defined.

(** X10. For every supported year and either value of [observed], the three
    fixed-date names are written exactly once each, on April 30, May 1 and
    September 2 of the year, in that order, and each is the binding of its
    date when the call returns. *)
Theorem fixed_dates_always (obs : bool) (year : Z) :
  START_YEAR <= year <= END_YEAR ->
  exists self,
    populated obs year = (Ok tt, self)
    /\ filter (fun e => is_fixed_name (snd e)) (assignments self)
       = [ (Date year APR 30, liberation_name);
           (Date year MAY 1, labor_name);
           (Date year SEP 2, independence_name) ]
    /\ lookup (Date year APR 30) (items self) = Some liberation_name
    /\ lookup (Date year MAY 1) (items self) = Some labor_name
    /\ lookup (Date year SEP 2) (items self) = Some independence_name.
Proof.
  intros Hy.
  destruct (rules_supported_either obs year Hy) as (self & Hp & Hok).
  destruct (rules_hold_spec _ _ _ Hok) as (_ & _ & Hfx & Hfb & _).
  exists self. split; [exact Hp |]. split; [exact Hfx |].
  repeat split; apply (all_bound_In _ _ _ _ Hfb); cbn; auto.
Qed.

Lemma fixed_dates_always_witness :
  (START_YEAR <= 1975 <= END_YEAR)
  /\ exists self,
      populated false 1975 = (Ok tt, self)
      /\ filter (fun e => is_fixed_name (snd e)) (assignments self)
         = [ (Date 1975 APR 30, liberation_name);
             (Date 1975 MAY 1, labor_name);
             (Date 1975 SEP 2, independence_name) ]
      /\ lookup (Date 1975 APR 30) (items self) = Some liberation_name
      /\ lookup (Date 1975 MAY 1) (items self) = Some labor_name
      /\ lookup (Date 1975 SEP 2) (items self) = Some independence_name.
Proof.
  assert (Hy : START_YEAR <= 1975 <= END_YEAR)
    by (vm_compute; split; discriminate).
  split; [exact Hy | exact (fixed_dates_always false 1975 Hy)].
Defined.

(** X11. For every supported year and either value of [observed], every date
    the call assigns lies in the Gregorian year [year]. *)
Theorem dates_in_year (obs : bool) (year : Z) (d : date) (n : string) :
  START_YEAR <= year <= END_YEAR ->
  In (d, n) (items (snd (populated obs year))) ->
  year_of d = year.
Proof.
  intros Hy Hin.
  destruct (rules_supported_either obs year Hy) as (self & Hp & Hok).
  destruct (rules_hold_spec _ _ _ Hok) as (_ & _ & _ & _ & Hyr).
  rewrite Hp in Hin. cbn [snd] in Hin. rewrite forallb_forall in Hyr.
  apply Z.eqb_eq, (Hyr (d, n) Hin).
Qed.

Lemma dates_in_year_witness :
  (START_YEAR <= 2061 <= END_YEAR)
  /\ In (Date 2061 1 20, "Vietnamese New Year's Eve")
        (items (snd (populated true 2061)))
  /\ year_of (Date 2061 1 20) = 2061.
Proof.
  assert (Hy : START_YEAR <= 2061 <= END_YEAR)
    by (vm_compute; split; discriminate).
  assert (Hin : In (Date 2061 1 20, "Vietnamese New Year's Eve")
                   (items (snd (populated true 2061))))
    by (vm_compute; auto 20).
  split; [exact Hy |]. split; [exact Hin |].
  exact (dates_in_year true 2061 _ _ Hy Hin).
Defined.

(** X12. For every supported year, turning [observed] on only adds: every
    date bound with [observed] off is bound to the same name with
    [observed] on. *)
Theorem observed_only_adds (year : Z) (d : date) (n : string) :
  START_YEAR <= year <= END_YEAR ->
  lookup d (items (snd (populated false year))) = Some n ->
  lookup d (items (snd (populated true year))) = Some n.
Proof.
  intros Hy Hl.
  destruct (rules_supported year Hy) as (off & on & Hf & Ht & _ & _ & H).
  rewrite Hf in Hl. rewrite Ht. cbn [snd] in *.
  apply (all_bound_In _ _ _ _ H), lookup_In, Hl.
Qed.

Lemma observed_only_adds_witness :
  (START_YEAR <= 2023 <= END_YEAR)
  /\ lookup (Date 2023 4 29) (items (snd (populated false 2023)))
     = Some hung_kings_name
  /\ lookup (Date 2023 4 29) (items (snd (populated true 2023)))
     = Some hung_kings_name.
Proof.
  assert (Hy : START_YEAR <= 2023 <= END_YEAR)
    by (vm_compute; split; discriminate).
  assert (Hoff : lookup (Date 2023 4 29) (items (snd (populated false 2023)))
                 = Some hung_kings_name) by (vm_compute; reflexivity).
  split; [exact Hy |]. split; [exact Hoff |].
  exact (observed_only_adds 2023 _ _ Hy Hoff).
Defined.

(** X13. For every year a [date] can carry, an entry written under the name
    with the suffix [" observed"] is written only with [observed] on and
    January 1st a Saturday or a Sunday, and it falls on a Monday. *)
Theorem observed_new_year_is_a_monday
        (obs : bool) (year : Z) (d : date) (n : string) :
  MINYEAR <= year <= MAXYEAR ->
  In (d, n) (entries_named observed_name
                           (assignments (snd (populated obs year)))) ->
  obs = true /\ weekday d = 0
  /\ (weekday (Date year JAN 1) = SAT \/ weekday (Date year JAN 1) = SUN).
Proof.
  intros Hy Hin. pose proof (new_year_ok_all obs year Hy) as Hok.
  unfold new_year_ok in Hok. cbv zeta in Hok.
  apply andb_prop in Hok as [Hok _]. apply andb_prop in Hok as [_ Hsh].
  apply entries_eqb_eq in Hsh. rewrite Hsh in Hin. clear Hsh.
  unfold shifted in Hin. cbv zeta in Hin.
  destruct obs; cbn [andb] in Hin; [| contradiction].
  split; [reflexivity |].
  destruct (Z.eqb_spec (weekday (Date year JAN 1)) SAT) as [Hsat | _].
  - destruct Hin as [[= <- _] | []]. split; [| now left].
    unfold weekday, SAT, JAN in *. rewrite toordinal_jan in *.
    generalize dependent (_days_before_year year). intros t Ht.
    revert Ht. Z.div_mod_to_equations. lia.
  - destruct (Z.eqb_spec (weekday (Date year JAN 1)) SUN) as [Hsun | _];
      [| contradiction].
    destruct Hin as [[= <- _] | []]. split; [| now right].
    unfold weekday, SUN, JAN in *. rewrite toordinal_jan in *.
    generalize dependent (_days_before_year year). intros t Ht.
    revert Ht. Z.div_mod_to_equations. lia.
Qed.

Lemma observed_new_year_is_a_monday_witness :
  (MINYEAR <= 2023 <= MAXYEAR)
  /\ In (Date 2023 JAN 2, observed_name)
        (entries_named observed_name
                       (assignments (snd (populated true 2023))))
  /\ weekday (Date 2023 JAN 2) = 0.
Proof.
  assert (Hy : MINYEAR <= 2023 <= MAXYEAR)
    by (vm_compute; split; discriminate).
  assert (Hin : In (Date 2023 JAN 2, observed_name)
                   (entries_named observed_name
                      (assignments (snd (populated true 2023)))))
    by (vm_compute; auto).
  split; [exact Hy |]. split; [exact Hin |].
  exact (proj1 (proj2 (observed_new_year_is_a_monday true 2023 _ _ Hy Hin))).
Defined.





(** X16. For a year a [date] can carry but above [END_YEAR] or more than 199
    below [START_YEAR], [_populate] raises [IndexError] in the converter and
    leaves behind what the New Year rule had written by then: January 1st
    (twice with [observed] on) and its shifted entry if any; none of the
    later rules has run. *)
Theorem populate_uncovered_year (obs : bool) (year : Z) :
  MINYEAR <= year <= MAXYEAR ->
  END_YEAR < year \/ year < START_YEAR - 199 ->
  exists self,
    populated obs year = (Raise IndexError, self)
    /\ observed self = obs
    /\ assignments self
       = ((Date year JAN 1, new_year_name)
          :: (if obs then (Date year JAN 1, new_year_name) :: shifted obs year
              else []))%list
    /\ lookup (Date year APR 30) (items self) = None.
Proof.
  intros Hy Hout. exists (Self obs (new_year_block obs year)).
  split; [apply populated_uncovered; assumption |].
  split; [reflexivity |].
  unfold assignments, new_year_block, shifted. cbv zeta.
  destruct obs, (weekday (Date year JAN 1) =? SAT),
    (weekday (Date year JAN 1) =? SUN);
    cbn [items andb app rev lookup]; split; try reflexivity;
    unfold date_eqb; cbn [year_of month_of day_of];
    rewrite ?Z.eqb_refl; reflexivity.
Qed.

Lemma populate_uncovered_year_witness :
  (MINYEAR <= 2101 <= MAXYEAR)
  /\ (END_YEAR < 2101 \/ 2101 < START_YEAR - 199)
  /\ exists self,
      populated true 2101 = (Raise IndexError, self)
      /\ observed self = true
      /\ assignments self
         = ((Date 2101 JAN 1, new_year_name)
            :: (if true then (Date 2101 JAN 1, new_year_name)
                             :: shifted true 2101
                else []))%list
      /\ lookup (Date 2101 APR 30) (items self) = None.
Proof.
  assert (Hy : MINYEAR <= 2101 <= MAXYEAR)
    by (vm_compute; split; discriminate).
  assert (Hout : END_YEAR < 2101 \/ 2101 < START_YEAR - 199)
    by (left; reflexivity).
  split; [exact Hy |]. split; [exact Hout |].
  exact (populate_uncovered_year true 2101 Hy Hout).
Defined.
